(** * gogpsdo: the HP Z3805A Time-of-Day decoder and the chrony SOCK sample

    A shallow embedding of [parseZ3805APacket] and [sendChronySample] of
    gogpsdo.go, together with the part of Go's [time] and [encoding/binary]
    packages that the two functions call, of [GPSDOStatus.String] and of the
    read loop of [Run].

    Conventions.
    - A Go [int] / [int64] is a [Z].  Every intermediate value of the decoder
      is bounded by 100*255 + 10*255 + 255, far from the 64-bit range, so no
      wrap-around can occur and none is written out.
    - A Go [byte] is a [Byte.byte]; [int(b)] is [byteval b].
    - A [*Z3805AData] is an [option Z3805AData], [nil] being [None].
    - [time.Now()] is an explicit argument of the decoder. *)

From Stdlib Require Import ZArith List Bool Lia.
From Stdlib Require Import Strings.Byte.
From Stdlib Require Import Floats.SpecFloat.
From Stdlib Require Strings.String.
Import ListNotations.

Local Open Scope Z_scope.

(** ** Go's [time] package, restricted to the UTC location

    The decoder calls [time.Date], [AddDate], [Year], [Month], [Day] and
    [YearDay]; the transmitter calls [Unix] and [Nanosecond].  They are
    modelled after the library's algorithms on the proleptic Gregorian
    calendar: days are counted in cycles of 400, 100, 4 and 1 years. *)

Module GoTime.

(** A [time.Time] in UTC: seconds since the Unix epoch and the nanosecond
    offset within that second. *)
Record Time : Set := mkTime { unixSec : Z; nanos : Z }.

Definition secondsPerMinute : Z := 60.
Definition secondsPerHour   : Z := 3600.
Definition secondsPerDay    : Z := 86400.
Definition daysPer400Years  : Z := 365 * 400 + 97.
Definition daysPer100Years  : Z := 365 * 100 + 24.
Definition daysPer4Years    : Z := 365 * 4 + 1.

(** The library counts days from January 1 of a year congruent to 1 modulo
    400, chosen far in the past so that its unsigned arithmetic never goes
    negative.  Any such year gives the same calendar; 1601 is used here,
    with floor division on [Z] in place of unsigned division. *)
Definition absoluteZeroYear : Z := 1601.

(** Days from January 1, 1601 to January 1, 1970. *)
Definition unixEpochDay : Z := 134774.

Definition isLeap (year : Z) : bool :=
  (year mod 4 =? 0) && (negb (year mod 100 =? 0) || (year mod 400 =? 0)).

(** [daysBefore m] is the number of days in a non-leap year before month
    [m+1]; there is an entry for [m = 12] counting the whole year. *)
Definition daysBefore (m : Z) : Z :=
  match m with
  | 0 => 0
  | 1 => 31
  | 2 => 31 + 28
  | 3 => 31 + 28 + 31
  | 4 => 31 + 28 + 31 + 30
  | 5 => 31 + 28 + 31 + 30 + 31
  | 6 => 31 + 28 + 31 + 30 + 31 + 30
  | 7 => 31 + 28 + 31 + 30 + 31 + 30 + 31
  | 8 => 31 + 28 + 31 + 30 + 31 + 30 + 31 + 31
  | 9 => 31 + 28 + 31 + 30 + 31 + 30 + 31 + 31 + 30
  | 10 => 31 + 28 + 31 + 30 + 31 + 30 + 31 + 31 + 30 + 31
  | 11 => 31 + 28 + 31 + 30 + 31 + 30 + 31 + 31 + 30 + 31 + 30
  | _ => 31 + 28 + 31 + 30 + 31 + 30 + 31 + 31 + 30 + 31 + 30 + 31
  end.

(** [norm hi lo base] carries the overflow of [lo] into [hi], leaving
    [0 <= nlo < base]. *)
Definition norm (hi lo base : Z) : Z * Z := (hi + lo / base, lo mod base).

(** Days from the absolute epoch to January 1 of [year]. *)
Definition daysSinceEpoch (year : Z) : Z :=
  let y := year - absoluteZeroYear in
  let n400 := y / 400 in
  let y := y - 400 * n400 in
  let d := daysPer400Years * n400 in
  let n100 := y / 100 in
  let y := y - 100 * n100 in
  let d := d + daysPer100Years * n100 in
  let n4 := y / 4 in
  let y := y - 4 * n4 in
  let d := d + daysPer4Years * n4 in
  d + 365 * y.

(** [time.Date(year, month, day, hour, min, sec, nsec, time.UTC)].  Values
    out of range are normalised: months overflow into the year, the clock
    fields into the day, and the day is simply added, which is what makes
    [AddDate] work. *)
Definition Date (year month day hour min sec nsec : Z) : Time :=
  let '(year, m) := norm year (month - 1) 12 in
  let '(sec, nsec) := norm sec nsec 1000000000 in
  let '(min, sec) := norm min sec 60 in
  let '(hour, min) := norm hour min 60 in
  let '(day, hour) := norm day hour 24 in
  let d := daysSinceEpoch year in
  let d := d + daysBefore m in
  let d := if isLeap year && (3 <=? m + 1) then d + 1 else d in
  let d := d + (day - 1) in
  let abs := d * secondsPerDay in
  let abs := abs + (hour * secondsPerHour + min * secondsPerMinute + sec) in
  mkTime (abs - unixEpochDay * secondsPerDay) nsec.

(** The absolute second count of a time. *)
Definition abs (t : Time) : Z := unixSec t + unixEpochDay * secondsPerDay.

(** [absDate]: the year and the zero-based day of the year of an absolute
    day count. *)
Definition absDate (d : Z) : Z * Z :=
  let n := d / daysPer400Years in
  let y := 400 * n in
  let d := d - daysPer400Years * n in
  let n := d / daysPer100Years in
  let n := n - Z.shiftr n 2 in
  let y := y + 100 * n in
  let d := d - daysPer100Years * n in
  let n := d / daysPer4Years in
  let y := y + 4 * n in
  let d := d - daysPer4Years * n in
  let n := d / 365 in
  let n := n - Z.shiftr n 2 in
  let y := y + n in
  let d := d - 365 * n in
  (y + absoluteZeroYear, d).

(** The month (1..12) and the day of the month of day [yday] (zero-based)
    of [year]. *)
Definition monthDay (year yday : Z) : Z * Z :=
  let leapFeb := isLeap year && (yday =? 31 + 29 - 1) in
  if leapFeb then (2, 29)
  else
    let day := if isLeap year && (31 + 29 - 1 <? yday) then yday - 1 else yday in
    let month := day / 31 in
    let e := daysBefore (month + 1) in
    let '(month, begin) :=
      if e <=? day then (month + 1, e) else (month, daysBefore month) in
    (month + 1, day - begin + 1).

Definition absDay (t : Time) : Z := abs t / secondsPerDay.

Definition Year (t : Time) : Z := fst (absDate (absDay t)).
Definition YearDay (t : Time) : Z := snd (absDate (absDay t)) + 1.
Definition Month (t : Time) : Z :=
  let '(y, yd) := absDate (absDay t) in fst (monthDay y yd).
Definition Day (t : Time) : Z :=
  let '(y, yd) := absDate (absDay t) in snd (monthDay y yd).

(** [t.Clock()]: hour, minute and second within the day. *)
Definition Clock (t : Time) : Z * Z * Z :=
  let sec := abs t mod secondsPerDay in
  let hour := sec / secondsPerHour in
  let sec := sec - hour * secondsPerHour in
  let min := sec / secondsPerMinute in
  let sec := sec - min * secondsPerMinute in
  (hour, min, sec).

(** [t.AddDate(years, months, days)]. *)
Definition AddDate (t : Time) (years months days : Z) : Time :=
  let '(hour, min, sec) := Clock t in
  Date (Year t + years) (Month t + months) (Day t + days)
       hour min sec (nanos t).

Definition Unix (t : Time) : Z := unixSec t.
Definition Nanosecond (t : Time) : Z := nanos t.

End GoTime.

(** ** The decoder *)

Inductive GPSDOStatus : Set :=
| GPSDOPowerUp
| GPSDOHoldover
| GPSDOLocked
| GPSDOUnknown.

Definition GPSDOStatus_eqb (a b : GPSDOStatus) : bool :=
  match a, b with
  | GPSDOPowerUp, GPSDOPowerUp
  | GPSDOHoldover, GPSDOHoldover
  | GPSDOLocked, GPSDOLocked
  | GPSDOUnknown, GPSDOUnknown => true
  | _, _ => false
  end.

Record Z3805AData : Set := mkZ3805AData {
  Year        : Z;
  DayOfYear   : Z;
  Hour        : Z;
  Minute      : Z;
  Second      : Z;
  LeapSeconds : Z;
  Status      : GPSDOStatus;
  Valid       : bool;
  Timestamp   : GoTime.Time;
  ParseTime   : GoTime.Time
}.

(** [int(b)] for a byte [b]. *)
Definition byteval (b : byte) : Z := Z.of_N (Byte.to_N b).

(** [data[i]] read as an [int]; the decoder only indexes after it has
    checked the length, so the default is never observed. *)
Definition at_ (data : list byte) (i : nat) : Z := byteval (nth i data x00).

(** The seven weighted digit sums, as the decoder computes them. *)
Definition fieldYear (data : list byte) : Z := 2000 + at_ data 0 * 10 + at_ data 1.
Definition fieldDayOfYear (data : list byte) : Z :=
  at_ data 2 * 100 + at_ data 3 * 10 + at_ data 4.
Definition fieldHour (data : list byte) : Z := at_ data 5 * 10 + at_ data 6.
Definition fieldMinute (data : list byte) : Z := at_ data 7 * 10 + at_ data 8.
Definition fieldSecond (data : list byte) : Z := at_ data 9 * 10 + at_ data 10.
Definition fieldLeapSeconds (data : list byte) : Z := at_ data 11 * 10 + at_ data 12.
Definition fieldStatusVal (data : list byte) : Z := at_ data 13 * 10 + at_ data 14.

(** The [switch statusVal] of the decoder. *)
Definition statusOf (statusVal : Z) : GPSDOStatus :=
  match statusVal with
  | 0 => GPSDOLocked
  | 10 => GPSDOPowerUp
  | 100 => GPSDOHoldover
  | _ => GPSDOUnknown
  end.

(** The timestamp before the rollover fix: January 1 of [year], plus
    [dayOfYear - 1] days, at the decoded clock time. *)
Definition civilTimestamp (year dayOfYear hour minute second : Z) : GoTime.Time :=
  let startOfYear := GoTime.Date year 1 1 0 0 0 0 in
  let targetDate := GoTime.AddDate startOfYear 0 0 (dayOfYear - 1) in
  GoTime.Date (GoTime.Year targetDate) (GoTime.Month targetDate)
              (GoTime.Day targetDate) hour minute second 0.

Definition parseZ3805APacket (now : GoTime.Time) (data : list byte)
  : option Z3805AData :=
  if negb (Nat.eqb (length data) 16) || negb (at_ data 15 =? 13) then None
  else
    let year := fieldYear data in
    let dayOfYear := fieldDayOfYear data in
    let hour := fieldHour data in
    let minute := fieldMinute data in
    let second := fieldSecond data in
    let leapSeconds := fieldLeapSeconds data in
    let statusVal := fieldStatusVal data in
    if (year <? 2000) || (2099 <? year) || (dayOfYear <? 1) || (366 <? dayOfYear)
       || (23 <? hour) || (59 <? minute) || (59 <? second)
    then None
    else
      let status := statusOf statusVal in
      let timestamp := civilTimestamp year dayOfYear hour minute second in
      let '(timestamp, year, dayOfYear) :=
        if year <? 2020 then
          let timestamp := GoTime.AddDate timestamp 0 0 7168 in
          (timestamp, GoTime.Year timestamp, GoTime.YearDay timestamp)
        else (timestamp, year, dayOfYear) in
      Some {| Year := year;
              DayOfYear := dayOfYear;
              Hour := hour;
              Minute := minute;
              Second := second;
              LeapSeconds := leapSeconds;
              Status := status;
              Valid := GPSDOStatus_eqb status GPSDOLocked
                       || GPSDOStatus_eqb status GPSDOHoldover;
              Timestamp := timestamp;
              ParseTime := now |}.

(** ** The sample record and its encoding *)

(** [unix.Timeval] as the code uses it: both fields are assigned an [int64]
    without conversion, so both are 64-bit. *)
Record Timeval : Set := mkTimeval { Sec : Z; Usec : Z }.

Record sockSample : Set := mkSockSample {
  Tv     : Timeval;
  Offset : spec_float;
  Pulse  : Z;
  Leap   : Z;
  Pad    : Z;
  Magic  : Z
}.

(** The byte whose value is [z] modulo 256. *)
Definition byte_of_Z (z : Z) : byte :=
  match Byte.of_N (Z.to_N (z mod 256)) with
  | Some b => b
  | None => x00
  end.

(** [binary.LittleEndian] on an [n]-byte integer: least significant byte
    first.  On [Z] the shifts and the mask read a negative value in two's
    complement, which is the conversion to the unsigned type of the same
    width that the library performs. *)
Fixpoint putLE (n : nat) (v : Z) : list byte :=
  match n with
  | O => []
  | S n' => byte_of_Z (Z.land v 255) :: putLE n' (Z.shiftr v 8)
  end.

(** The unsigned value of a little-endian byte string. *)
Fixpoint leUint (bs : list byte) : Z :=
  match bs with
  | [] => 0
  | b :: bs' => byteval b + 256 * leUint bs'
  end.

(** [math.Float64bits]: the IEEE 754 binary64 bit pattern, for a float in
    the canonical form of precision 53 (a normal mantissa lies in
    [2^52, 2^53), a subnormal one below [2^52] with exponent -1074). *)
Definition float64bits (f : spec_float) : Z :=
  let sign (s : bool) := if s then 2 ^ 63 else 0 in
  match f with
  | S754_zero s => sign s
  | S754_infinity s => sign s + 2047 * 2 ^ 52
  | S754_nan => 2047 * 2 ^ 52 + 2 ^ 51 + 1
  | S754_finite s m e =>
      if Z.pos m <? 2 ^ 52 then sign s + Z.pos m
      else sign s + (e + 1075) * 2 ^ 52 + (Z.pos m - 2 ^ 52)
  end.

Definition encodeTimeval (tv : Timeval) : list byte :=
  putLE 8 (Sec tv) ++ putLE 8 (Usec tv).

(** [binary.Write(buf, binary.LittleEndian, sample)]: the fields in
    declaration order, nested structs flattened, no padding.  Every field has
    a fixed size, so the call cannot fail. *)
Definition encodeSample (s : sockSample) : list byte :=
  encodeTimeval (Tv s)
  ++ putLE 8 (float64bits (Offset s))
  ++ putLE 4 (Pulse s)
  ++ putLE 4 (Leap s)
  ++ putLE 4 (Pad s)
  ++ putLE 4 (Magic s).

(** The sample built by [sendChronySample]; the division of the nanosecond
    count is Go's, truncating towards zero. *)
Definition chronySample (data : Z3805AData) : sockSample :=
  {| Tv := {| Sec := GoTime.Unix (Timestamp data);
              Usec := Z.quot (GoTime.Nanosecond (Timestamp data)) 1000 |};
     Offset := S754_zero false;
     Pulse := 0;
     Leap := 0;
     Pad := 0;
     Magic := 0x534f434b |}.

(** The earlier revision of the file declares the record flat, with the two
    timeval fields inline, and names the constants before use. *)
Module Flat.

Record sockSample : Set := mkSockSample {
  Sec    : Z;
  Usec   : Z;
  Offset : spec_float;
  Pulse  : Z;
  Leap   : Z;
  Pad    : Z;
  Magic  : Z
}.

Definition encodeSample (s : sockSample) : list byte :=
  putLE 8 (Sec s)
  ++ putLE 8 (Usec s)
  ++ putLE 8 (float64bits (Offset s))
  ++ putLE 4 (Pulse s)
  ++ putLE 4 (Leap s)
  ++ putLE 4 (Pad s)
  ++ putLE 4 (Magic s).

Definition chronySample (data : Z3805AData) : sockSample :=
  let offset := S754_zero false in
  let pulse := 0 in
  let leap := 0 in
  {| Sec := GoTime.Unix (Timestamp data);
     Usec := Z.quot (GoTime.Nanosecond (Timestamp data)) 1000;
     Offset := offset;
     Pulse := pulse;
     Leap := leap;
     Pad := 0;
     Magic := 0x534f434b |}.

End Flat.

(** ** Transmission *)

(** What the outside world decides during one call: whether the datagram
    socket can be dialled and whether the write goes through. *)
Record SockEnv : Set := mkSockEnv { dialOk : bool; writeOk : bool }.

Inductive LogLine : Set :=
| LogConnectFailed
| LogWriteFailed
| LogSampleSent (year dayOfYear hour minute second : Z)
                (status : GPSDOStatus) (leapSeconds : Z).

(** The state a call can touch: the datagrams handed to the socket, the
    number of sockets opened and closed, the [chronySamples] counter (a
    [uint64]) and the log. *)
Record Bridge : Set := mkBridge {
  sent          : list (list byte);
  dialled       : nat;
  closed        : nat;
  chronySamples : Z;
  logged        : list LogLine
}.

Definition logPrintf (l : LogLine) (g : Bridge) : Bridge :=
  {| sent := sent g; dialled := dialled g; closed := closed g;
     chronySamples := chronySamples g; logged := logged g ++ [l] |}.

Definition sendChronySample (env : SockEnv) (g : Bridge)
  (data : option Z3805AData) : Bridge :=
  match data with
  | None => g
  | Some d =>
      if negb (Valid d) then g
      else
        (* binary.Write cannot fail on this record, so its error branch
           is left out *)
        let buf := encodeSample (chronySample d) in
        if negb (dialOk env) then logPrintf LogConnectFailed g
        else
          (* the socket is open from here on; the deferred Close runs on
             every return below *)
          let g := {| sent := sent g; dialled := S (dialled g);
                      closed := S (closed g);
                      chronySamples := chronySamples g;
                      logged := logged g |} in
          if negb (writeOk env) then logPrintf LogWriteFailed g
          else
            let g := {| sent := sent g ++ [buf]; dialled := dialled g;
                        closed := closed g;
                        chronySamples := (chronySamples g + 1) mod 2 ^ 64;
                        logged := logged g |} in
            logPrintf (LogSampleSent (Year d) (DayOfYear d) (Hour d)
                                     (Minute d) (Second d) (Status d)
                                     (LeapSeconds d)) g
  end.

(** ** Telegrams used in the statements below *)

(** The scenario buffer of the specification, one packed pair per byte. *)
Definition scenarioBuffer : list byte :=
  [x25; x05; x04; x03; x00; x12; x15; x30; x00; x00; x00; x00; x00; x00; x00; x0d].

(** The same reading, one decimal digit per byte: 25, 043, 12, 15, 30, 00, 00. *)
Definition digitBuffer : list byte :=
  [x02; x05; x00; x04; x03; x01; x02; x01; x05; x03; x00; x00; x00; x00; x00; x0d].

(** Year 2000, day 1, midnight. *)
Definition earlyBuffer : list byte :=
  [x00; x00; x00; x00; x01; x00; x00; x00; x00; x00; x00; x00; x00; x00; x00; x0d].

(** [digitBuffer] with the terminator replaced by a line feed. *)
Definition lineFeedBuffer : list byte :=
  [x02; x05; x00; x04; x03; x01; x02; x01; x05; x03; x00; x00; x00; x00; x00; x0a].

(** [digitBuffer] with status digits 1, 0. *)
Definition powerUpBuffer : list byte :=
  [x02; x05; x00; x04; x03; x01; x02; x01; x05; x03; x00; x00; x00; x01; x00; x0d].

(** [digitBuffer] with hour digits 2, 4. *)
Definition hour24Buffer : list byte :=
  [x02; x05; x00; x04; x03; x02; x04; x01; x05; x03; x00; x00; x00; x00; x00; x0d].

(** Minute bytes 0x00, 0x3B: the second one is no decimal digit. *)
Definition nonDigitBuffer : list byte :=
  [x02; x05; x00; x04; x03; x01; x02; x00; x3b; x03; x00; x00; x00; x00; x00; x0d].

(** The telegram of the rollover scenario: year digits 1, 9, day 043. *)
Definition rolloverBuffer : list byte :=
  [x01; x09; x00; x04; x03; x01; x02; x01; x05; x03; x00; x00; x00; x00; x00; x0d].

Definition epoch : GoTime.Time := GoTime.mkTime 0 0.

(** ** The calendar, for the proofs *)

Module Calendar.
Import GoTime.

(** The absolute day number that [Date] computes for a date whose month is
    in range. *)
Definition civilDay (y m d : Z) : Z :=
  daysSinceEpoch y + daysBefore (m - 1)
  + (if isLeap y && (3 <=? m) then 1 else 0) + (d - 1).

(** Year, month and day of an absolute day number, as [Year], [Month] and
    [Day] read them. *)
Definition ymd (D : Z) : Z * Z * Z :=
  let '(y, yd) := absDate D in
  let '(m, d) := monthDay y yd in
  (y, m, d).

(** Day [D] survives the trip through the calendar and back. *)
Definition roundTrips (D : Z) : bool :=
  let '(y, m, d) := ymd D in
  (1 <=? m) && (m <=? 12) && (civilDay y m d =? D).

(** The checks below take the computed value as an argument of its own,
    so that their specifications are proved once, on variables. *)

(** [d], the first day of a year, lies inside the century the telegram
    can name; after 2000 it lies past the 366 days of that year. *)
Definition yearStartOk (y d : Z) : bool :=
  (daysSinceEpoch 2000 <=? d) && (d <=? daysSinceEpoch 2000 + 36160)
  && ((y =? 2000) || (daysSinceEpoch 2000 + 366 <=? d))
  && ((2020 <=? y) || (d <=? daysSinceEpoch 2000 + 6940)).

(** [p], the year and zero-based day of the year 7168 days after day [D],
    are a date of 2019..2039, of 2019 exactly up to day 137 of 2000. *)
Definition rolloverOk (D : Z) (p : Z * Z) : bool :=
  (2019 <=? fst p) && (fst p <=? 2039) && (0 <=? snd p) && (snd p <=? 365)
  && (if D <? daysSinceEpoch 2000 + 137 then fst p =? 2019
      else 2020 <=? fst p).

(** The integers [lo, lo + n). *)
Fixpoint zfrom (lo : Z) (n : nat) : list Z :=
  match n with
  | O => []
  | S n' => lo :: zfrom (lo + 1) n'
  end.

Definition zrange (lo n : Z) : list Z := zfrom lo (Z.to_nat n).

End Calendar.

(** The time at clock reading [h:m:s], nanosecond [n], on absolute day [D]. *)
Definition onDay (D h m s n : Z) : GoTime.Time :=
  GoTime.mkTime
    ((D - GoTime.unixEpochDay) * 86400 + (h * 3600 + m * 60 + s)) n.

(** ** Well-formed telegrams *)

(** The buffer passes the length and terminator test. *)
Definition framed (data : list byte) : Prop :=
  length data = 16%nat /\ nth_error data 15 = Some x0d.

(** Every weighted sum lies in the range the decoder accepts. *)
Definition inRange (data : list byte) : Prop :=
  2000 <= fieldYear data <= 2099
  /\ 1 <= fieldDayOfYear data <= 366
  /\ 0 <= fieldHour data <= 23
  /\ 0 <= fieldMinute data <= 59
  /\ 0 <= fieldSecond data <= 59.

Definition wellFormed (data : list byte) : Prop := framed data /\ inRange data.

(** The absolute day the telegram names, before any correction. *)
Definition telegramDay (data : list byte) : Z :=
  GoTime.daysSinceEpoch (fieldYear data) + fieldDayOfYear data - 1.

(** The record a well-formed telegram decodes to, in closed form: the
    calendar calls of the decoder are replaced by the absolute day they
    compute.  [parse_wellFormed] and [parse_Some_inv] below show that the
    decoder returns this record and no other. *)
Definition decoded (now : GoTime.Time) (data : list byte) : Z3805AData :=
  let early := fieldYear data <? 2020 in
  let day := telegramDay data + (if early then 7168 else 0) in
  let status := statusOf (fieldStatusVal data) in
  {| Year := if early then fst (GoTime.absDate day) else fieldYear data;
     DayOfYear := if early then snd (GoTime.absDate day) + 1
                  else fieldDayOfYear data;
     Hour := fieldHour data;
     Minute := fieldMinute data;
     Second := fieldSecond data;
     LeapSeconds := fieldLeapSeconds data;
     Status := status;
     Valid := GPSDOStatus_eqb status GPSDOLocked
              || GPSDOStatus_eqb status GPSDOHoldover;
     Timestamp := onDay day (fieldHour data) (fieldMinute data)
                        (fieldSecond data) 0;
     ParseTime := now |}.

(** All fields of two records agree, the decode time aside. *)
Definition sameReading (a b : Z3805AData) : Prop :=
  Year a = Year b /\ DayOfYear a = DayOfYear b /\ Hour a = Hour b
  /\ Minute a = Minute b /\ Second a = Second b
  /\ LeapSeconds a = LeapSeconds b /\ Status a = Status b
  /\ Valid a = Valid b /\ Timestamp a = Timestamp b.

(** ** The status names *)

Module StatusNames.
Import Stdlib.Strings.String.
Local Open Scope string_scope.

(** [GPSDOStatus.String]; the [default] branch is the one [GPSDOUnknown]
    takes. *)
Definition GPSDOStatus_String (s : GPSDOStatus) : string :=
  match s with
  | GPSDOPowerUp => "POWER_UP"
  | GPSDOHoldover => "HOLDOVER"
  | GPSDOLocked => "LOCKED"
  | GPSDOUnknown => "UNKNOWN"
  end.

End StatusNames.

(** ** The read loop of [Run] *)

(** [NewGPSDOChronySock]: a bridge with its statistics at zero; nothing has
    been sent, opened or logged. *)
Definition NewGPSDOChronySock : Bridge := mkBridge [] 0 0 0 [].

(** The zero [time.Time], January 1 of year 1. *)
Definition zeroTime : GoTime.Time := GoTime.mkTime (-62135596800) 0.

(** What one [port.Read(buffer)] returns: the bytes it stored at the front
    of the buffer, their count being [n], and whether [err] is non-nil. *)
Record ReadOutcome : Set := mkRead { readBytes : list byte; readFailed : bool }.

(** What the outside world decides during one turn of the loop: the read,
    the two readings of the clock and the fate of the socket. *)
Record Tick : Set := mkTick {
  readOutcome : ReadOutcome;
  parseNow    : GoTime.Time;
  updateNow   : GoTime.Time;
  sock        : SockEnv
}.

(** The line the loop logs for a decoded telegram. *)
Inductive TelegramLine : Set :=
| LogTelegram (year dayOfYear hour minute second : Z)
              (status : String.string) (leapSeconds : Z).

(** The state of the loop: the bridge, the remaining statistics (two
    [uint64] counters and the time of the last update), the telegram kept
    for the status report, the 16-byte read buffer and the loop's own log
    lines.  Within one turn the loop's line precedes whatever
    [sendChronySample] logs. *)
Record ReadLoop : Set := mkReadLoop {
  bridge       : Bridge;
  totalPackets : Z;
  validPackets : Z;
  lastUpdate   : GoTime.Time;
  currentData  : option Z3805AData;
  buffer       : list byte;
  telegramLog  : list TelegramLine
}.

(** The buffer after a read stored [bs] at its front. *)
Definition readInto (buf bs : list byte) : list byte :=
  bs ++ skipn (length bs) buf.

(** The state in which [Run] enters its loop. *)
Definition runStart : ReadLoop :=
  {| bridge := NewGPSDOChronySock;
     totalPackets := 0;
     validPackets := 0;
     lastUpdate := zeroTime;
     currentData := None;
     buffer := repeat x00 16;
     telegramLog := [] |}.

(** One turn of the [for run] loop. *)
Definition iteration (e : Tick) (l : ReadLoop) : ReadLoop :=
  let bs := readBytes (readOutcome e) in
  let buf := readInto (buffer l) bs in
  let l := {| bridge := bridge l; totalPackets := totalPackets l;
              validPackets := validPackets l; lastUpdate := lastUpdate l;
              currentData := currentData l; buffer := buf;
              telegramLog := telegramLog l |} in
  if readFailed (readOutcome e) then l
  else if Nat.eqb (length bs) 16 then
    let total := (totalPackets l + 1) mod 2 ^ 64 in
    match parseZ3805APacket (parseNow e) buf with
    | Some data =>
        {| bridge := sendChronySample (sock e) (bridge l) (Some data);
           totalPackets := total;
           validPackets := (validPackets l + 1) mod 2 ^ 64;
           lastUpdate := updateNow e;
           currentData := Some data;
           buffer := buf;
           telegramLog :=
             telegramLog l
             ++ [LogTelegram (Year data) (DayOfYear data) (Hour data)
                             (Minute data) (Second data)
                             (StatusNames.GPSDOStatus_String (Status data))
                             (LeapSeconds data)] |}
    | None =>
        {| bridge := bridge l; totalPackets := total;
           validPackets := validPackets l; lastUpdate := lastUpdate l;
           currentData := currentData l; buffer := buf;
           telegramLog := telegramLog l |}
    end
  else l.

(** The loop over the turns that happen before shutdown. *)
Definition runLoop (es : list Tick) (l : ReadLoop) : ReadLoop :=
  fold_left (fun l e => iteration e l) es l.

(** The read of a turn is one the loop hands to the decoder. *)
Definition fullRead (e : Tick) : bool :=
  negb (readFailed (readOutcome e))
  && Nat.eqb (length (readBytes (readOutcome e))) 16.

(** The read of a turn decodes. *)
Definition decodes (e : Tick) : bool :=
  fullRead e
  && match parseZ3805APacket (parseNow e) (readBytes (readOutcome e)) with
     | Some _ => true
     | None => false
     end.

(** The datagrams a turn delivers, from the turn alone. *)
Definition emitted (e : Tick) : list (list byte) :=
  if fullRead e then
    match parseZ3805APacket (parseNow e) (readBytes (readOutcome e)) with
    | Some d =>
        if Valid d && dialOk (sock e) && writeOk (sock e)
        then [encodeSample (chronySample d)]
        else []
    | None => []
    end
  else [].

(** The number of turns that satisfy [f]. *)
Definition countTurns (f : Tick -> bool) (es : list Tick) : Z :=
  Z.of_nat (length (filter f es)).

(** The fields of the loop state other than the buffer. *)
Definition sameButBuffer (a b : ReadLoop) : Prop :=
  bridge a = bridge b /\ totalPackets a = totalPackets b
  /\ validPackets a = validPackets b /\ lastUpdate a = lastUpdate b
  /\ currentData a = currentData b /\ telegramLog a = telegramLog b.

(** The two halves of [digitBuffer], read one after the other. *)
Definition splitReads : list Tick :=
  [mkTick (mkRead (firstn 10 digitBuffer) false) epoch epoch
          (mkSockEnv true true);
   mkTick (mkRead (skipn 10 digitBuffer) false) epoch epoch
          (mkSockEnv true true)].

(** What the loop keeps true from its start, [k] turns in: the three
    counters are ordered and bounded by the number of turns, one datagram
    was sent and one line logged per count, no socket is left open, and a
    telegram is kept exactly when one was counted. *)
Definition loopInv (k : Z) (l : ReadLoop) : Prop :=
  0 <= chronySamples (bridge l) <= validPackets l
  /\ validPackets l <= totalPackets l <= k
  /\ Z.of_nat (length (sent (bridge l))) = chronySamples (bridge l)
  /\ dialled (bridge l) = closed (bridge l)
  /\ (currentData l = None <-> validPackets l = 0)
  /\ Z.of_nat (length (telegramLog l)) = validPackets l.

(** Three turns: a PowerUp telegram, a read error, a Locked telegram. *)
Definition threeTurns : list Tick :=
  [mkTick (mkRead powerUpBuffer false) epoch epoch (mkSockEnv true true);
   mkTick (mkRead [] true) epoch epoch (mkSockEnv true true);
   mkTick (mkRead digitBuffer false) epoch epoch (mkSockEnv true true)].

(** ** More checks on the calendar *)

Module CalendarChecks.
Import GoTime.

(** [d], the first day of year [y], is not before 2020 when [y] is not. *)
Definition lateYearOk (y d : Z) : bool :=
  (y <? 2020) || (daysSinceEpoch 2000 + 7305 <=? d).

(** [p], the year and zero-based day of the year of day [doy] of year [y]:
    the same year and day, except that day 366 of a year without a leap day
    is the first day of the next year. *)
Definition sameDateOk (y doy : Z) (p : Z * Z) : bool :=
  if (doy <=? 365) || isLeap y
  then (fst p =? y) && (snd p + 1 =? doy)
  else (fst p =? y + 1) && (snd p =? 0).

End CalendarChecks.

(** Day 366 of 2025, a year of 365 days, at 12:15:30. *)
Definition day366Buffer : list byte :=
  [x02; x05; x03; x06; x06; x01; x02; x01; x05; x03; x00; x00; x00; x00; x00; x0d].

(** A telegram with status bytes 10, 0, the only way to code 100. *)
Definition holdoverBuffer : list byte :=
  [x02; x05; x00; x04; x03; x01; x02; x01; x05; x03; x00; x00; x00; x0a; x00; x0d].

(** * Properties *)

(** ** Bytes *)

Lemma byteval_range (b : byte) : 0 <= byteval b <= 255.
Proof.
  unfold byteval. pose proof (Byte.to_N_bounded b) as H. lia.
Qed.

Lemma at_range (data : list byte) (i : nat) : 0 <= at_ data i <= 255.
Proof. apply byteval_range. Qed.

Lemma byteval_byte_of_Z (z : Z) : byteval (byte_of_Z z) = z mod 256.
Proof.
  unfold byteval, byte_of_Z.
  assert (Hr : 0 <= z mod 256 < 256) by (apply Z.mod_pos_bound; lia).
  destruct (Byte.of_N (Z.to_N (z mod 256))) as [b|] eqn:E.
  - apply Byte.to_of_N in E. rewrite E. lia.
  - apply Byte.of_N_None_iff in E. lia.
Qed.

Lemma byteval_carriage_return (b : byte) : byteval b = 13 <-> b = x0d.
Proof.
  split.
  - intro H. unfold byteval in H.
    assert (E : Byte.to_N b = 13%N) by lia.
    apply (f_equal Byte.of_N) in E. rewrite Byte.of_to_N in E.
    vm_compute in E. congruence.
  - intros ->. reflexivity.
Qed.

Lemma at_nth_error (data : list byte) (i : nat) (b : byte) :
  nth_error data i = Some b -> at_ data i = byteval b.
Proof.
  intro H. unfold at_. now rewrite (nth_error_nth data i x00 H).
Qed.

(** The terminator test of the decoder, in terms of the list. *)
Lemma terminator_test (data : list byte) :
  length data = 16%nat ->
  (at_ data 15 =? 13) = true <-> nth_error data 15 = Some x0d.
Proof.
  intro Hlen.
  destruct (nth_error data 15) as [b|] eqn:E.
  - rewrite (at_nth_error _ _ _ E), Z.eqb_eq, byteval_carriage_return.
    split; congruence.
  - apply nth_error_None in E. lia.
Qed.

(** ** Little-endian integers *)

Lemma putLE_length (n : nat) (v : Z) : length (putLE n v) = n.
Proof.
  revert v. induction n as [|n IH]; intro v; simpl; [reflexivity|].
  now rewrite IH.
Qed.

(** Reading back the bytes of [putLE n v] gives [v] modulo [2^(8n)]: the
    first byte carries the least significant eight bits. *)
Lemma leUint_putLE (n : nat) (v : Z) :
  leUint (putLE n v) = v mod 2 ^ (8 * Z.of_nat n).
Proof.
  revert v. induction n as [|n IH]; intro v.
  - simpl. now rewrite Z.mod_1_r.
  - cbn [putLE leUint]. rewrite IH, byteval_byte_of_Z.
    change 255 with (Z.ones 8). rewrite Z.land_ones by lia.
    rewrite Z.shiftr_div_pow2 by lia.
    change (2 ^ 8) with 256.
    rewrite Z.mod_mod by lia.
    replace (8 * Z.of_nat (S n)) with (8 + 8 * Z.of_nat n) by lia.
    rewrite Z.pow_add_r by lia. change (2 ^ 8) with 256.
    rewrite Z.rem_mul_r by lia. reflexivity.
Qed.

(** ** The calendar on the telegram range *)

Module CalendarFacts.
Import GoTime Calendar.

Lemma in_zfrom (n : nat) :
  forall lo z, lo <= z < lo + Z.of_nat n -> In z (zfrom lo n).
Proof.
  induction n as [|n IH]; intros lo z Hz.
  - lia.
  - destruct (Z.eq_dec z lo) as [->|Hne].
    + now left.
    + right. apply IH. lia.
Qed.

Lemma zrange_forallb (P : Z -> bool) (lo n : Z) :
  forallb P (zrange lo n) = true ->
  forall z, lo <= z < lo + n -> P z = true.
Proof.
  intros H z Hz. rewrite forallb_forall in H. apply H.
  apply in_zfrom. lia.
Qed.

Lemma century_years :
  forallb (fun y => yearStartOk y (daysSinceEpoch y)) (zrange 2000 100)
  = true.
Proof. vm_compute. reflexivity. Qed.

Lemma century_days :
  forallb roundTrips (zrange (daysSinceEpoch 2000) 36526) = true.
Proof. vm_compute. reflexivity. Qed.

Lemma rollover_days :
  forallb (fun D => rolloverOk D (absDate (D + 7168)))
          (zrange (daysSinceEpoch 2000) 7306) = true.
Proof. vm_compute. reflexivity. Qed.

Lemma yearStartOk_spec (y d : Z) :
  yearStartOk y d = true ->
  daysSinceEpoch 2000 <= d <= daysSinceEpoch 2000 + 36160
  /\ (y <> 2000 -> daysSinceEpoch 2000 + 366 <= d)
  /\ (y < 2020 -> d <= daysSinceEpoch 2000 + 6940).
Proof.
  unfold yearStartOk. generalize (daysSinceEpoch 2000). intros k H.
  rewrite !andb_true_iff, !orb_true_iff, !Z.leb_le, Z.eqb_eq in H. lia.
Qed.

Lemma rolloverOk_spec (D : Z) (p : Z * Z) :
  rolloverOk D p = true ->
  2019 <= fst p <= 2039 /\ 0 <= snd p <= 365
  /\ (D < daysSinceEpoch 2000 + 137 -> fst p = 2019)
  /\ (daysSinceEpoch 2000 + 137 <= D -> 2020 <= fst p).
Proof.
  unfold rolloverOk. generalize (daysSinceEpoch 2000). intros k H.
  rewrite !andb_true_iff, !Z.leb_le in H.
  destruct H as ((((H1 & H2) & H3) & H4) & H5).
  destruct (D <? k + 137) eqn:E.
  - apply Z.ltb_lt in E. apply Z.eqb_eq in H5. lia.
  - apply Z.ltb_ge in E. apply Z.leb_le in H5. lia.
Qed.

(** Where the years of the century start. *)
Lemma daysSinceEpoch_century (y : Z) :
  2000 <= y <= 2099 ->
  daysSinceEpoch 2000 <= daysSinceEpoch y <= daysSinceEpoch 2000 + 36160
  /\ (y <> 2000 -> daysSinceEpoch 2000 + 366 <= daysSinceEpoch y)
  /\ (y < 2020 -> daysSinceEpoch y <= daysSinceEpoch 2000 + 6940).
Proof.
  intro Hy. apply yearStartOk_spec.
  apply (zrange_forallb (fun y => yearStartOk y (daysSinceEpoch y))
           _ _ century_years y).
  lia.
Qed.

Lemma roundTrips_century (y doy : Z) :
  2000 <= y <= 2099 -> 1 <= doy <= 366 ->
  roundTrips (daysSinceEpoch y + doy - 1) = true.
Proof.
  intros Hy Hd. pose proof (daysSinceEpoch_century y Hy).
  apply (zrange_forallb _ _ _ century_days). lia.
Qed.

(** The date 7168 days after a day of 2000..2019. *)
Lemma rollover_date (D : Z) :
  daysSinceEpoch 2000 <= D < daysSinceEpoch 2000 + 7306 ->
  2019 <= fst (absDate (D + 7168)) <= 2039
  /\ 0 <= snd (absDate (D + 7168)) <= 365
  /\ (D < daysSinceEpoch 2000 + 137 -> fst (absDate (D + 7168)) = 2019)
  /\ (daysSinceEpoch 2000 + 137 <= D -> 2020 <= fst (absDate (D + 7168))).
Proof.
  intro HD. apply rolloverOk_spec.
  apply (zrange_forallb (fun D => rolloverOk D (absDate (D + 7168)))
           _ _ rollover_days D).
  exact HD.
Qed.

(** The same, for day [doy] of year [y]. *)
Lemma rollover_year (y doy : Z) :
  2000 <= y < 2020 -> 1 <= doy <= 366 ->
  let p := absDate (daysSinceEpoch y + doy - 1 + 7168) in
  2019 <= fst p <= 2039 /\ 0 <= snd p <= 365
  /\ (y = 2000 /\ doy <= 137 -> fst p = 2019)
  /\ (2000 < y \/ 137 < doy -> 2020 <= fst p).
Proof.
  intros Hy Hd p.
  destruct (daysSinceEpoch_century y ltac:(lia)) as (B1 & B2 & B3).
  destruct (rollover_date (daysSinceEpoch y + doy - 1) ltac:(lia))
    as (R1 & R2 & R3 & R4).
  fold p in R1, R2, R3, R4. clearbody p.
  split; [lia|]. split; [lia|]. split.
  - intros [Hy0 Hdoy]. subst y. apply R3. lia.
  - intros [Hgt|Hgt]; apply R4; lia.
Qed.

End CalendarFacts.

(** ** [Date], [Clock] and [AddDate] on normalised arguments *)

Section TimeArithmetic.
Import GoTime Calendar.

Variables D h m s n : Z.
Hypothesis Hh : 0 <= h <= 23.
Hypothesis Hm : 0 <= m <= 59.
Hypothesis Hs : 0 <= s <= 59.
Hypothesis Hn : 0 <= n < 1000000000.

Lemma Date_normal (y mo d : Z) :
  1 <= mo <= 12 -> civilDay y mo d = D -> Date y mo d h m s n = (onDay D h m s n).
Proof.
  intros Hmo HD. unfold Date, norm. cbv beta iota zeta.
  rewrite (Z.div_small (mo - 1) 12), (Z.mod_small (mo - 1) 12) by lia.
  rewrite (Z.div_small n), (Z.mod_small n) by lia.
  rewrite !Z.add_0_r.
  rewrite (Z.div_small s 60), (Z.mod_small s 60) by lia.
  rewrite !Z.add_0_r.
  rewrite (Z.div_small m 60), (Z.mod_small m 60) by lia.
  rewrite !Z.add_0_r.
  rewrite (Z.div_small h 24), (Z.mod_small h 24) by lia.
  rewrite !Z.add_0_r.
  replace (mo - 1 + 1) with mo by lia.
  unfold onDay. f_equal. rewrite <- HD. unfold civilDay.
  unfold secondsPerDay, secondsPerHour, secondsPerMinute.
  destruct (isLeap y && (3 <=? mo)); lia.
Qed.

Lemma abs_onDay : abs (onDay D h m s n) = D * 86400 + (h * 3600 + m * 60 + s).
Proof. unfold abs, onDay, secondsPerDay. cbn [unixSec]. lia. Qed.

Lemma absDay_onDay : absDay (onDay D h m s n) = D.
Proof.
  unfold absDay. rewrite abs_onDay. unfold secondsPerDay.
  symmetry. apply Z.div_unique with (r := h * 3600 + m * 60 + s); lia.
Qed.

Lemma Clock_onDay : Clock (onDay D h m s n) = (h, m, s).
Proof.
  unfold Clock. rewrite abs_onDay.
  unfold secondsPerDay, secondsPerHour, secondsPerMinute.
  assert (E1 : (D * 86400 + (h * 3600 + m * 60 + s)) mod 86400
               = h * 3600 + m * 60 + s).
  { symmetry. apply Z.mod_unique with (q := D); lia. }
  rewrite E1.
  assert (E2 : (h * 3600 + m * 60 + s) / 3600 = h).
  { symmetry. apply Z.div_unique with (r := m * 60 + s); lia. }
  rewrite E2.
  assert (E3 : (h * 3600 + m * 60 + s - h * 3600) / 60 = m).
  { symmetry. apply Z.div_unique with (r := s); lia. }
  rewrite E3. f_equal. lia.
Qed.

Lemma Year_onDay : Year (onDay D h m s n) = fst (absDate D).
Proof. unfold Year. now rewrite absDay_onDay. Qed.

Lemma YearDay_onDay : YearDay (onDay D h m s n) = snd (absDate D) + 1.
Proof. unfold YearDay. now rewrite absDay_onDay. Qed.

Lemma nanos_onDay : nanos (onDay D h m s n) = n.
Proof. reflexivity. Qed.

End TimeArithmetic.

Section CalendarArithmetic.
Import GoTime Calendar CalendarFacts.

Variables D h m s n : Z.
Hypothesis Hh : 0 <= h <= 23.
Hypothesis Hm : 0 <= m <= 59.
Hypothesis Hs : 0 <= s <= 59.
Hypothesis Hn : 0 <= n < 1000000000.
Hypothesis HD : roundTrips D = true.

(** Building a date from the calendar fields of day [D] gives day [D]
    back, with any clock reading. *)
Lemma Date_of_fields (t : Time) (h' m' s' k : Z) :
  0 <= h' <= 23 -> 0 <= m' <= 59 -> 0 <= s' <= 59 ->
  absDay t = D ->
  Date (Year t) (Month t) (Day t + k) h' m' s' n = onDay (D + k) h' m' s' n.
Proof.
  intros Hh' Hm' Hs' Ht. unfold Year, Month, Day. rewrite Ht.
  pose proof HD as R. unfold roundTrips, ymd in R.
  destruct (absDate D) as [y yd]. destruct (monthDay y yd) as [mo d].
  cbn [fst snd].
  apply andb_prop in R. destruct R as [R R3].
  apply andb_prop in R. destruct R as [R1 R2].
  apply Z.leb_le in R1, R2. apply Z.eqb_eq in R3.
  apply Date_normal; try lia.
  unfold civilDay in *. lia.
Qed.

(** Adding [k] days moves the absolute day by [k] and keeps the clock. *)
Lemma AddDate_days (k : Z) :
  AddDate (onDay D h m s n) 0 0 k = onDay (D + k) h m s n.
Proof.
  unfold AddDate. rewrite Clock_onDay by assumption.
  rewrite !Z.add_0_r, nanos_onDay.
  apply Date_of_fields; try assumption.
  now apply absDay_onDay.
Qed.

End CalendarArithmetic.

(** ** The decoder's guards and its closed form *)

Lemma frame_guard (data : list byte) :
  negb (Nat.eqb (length data) 16) || negb (at_ data 15 =? 13) = false
  <-> framed data.
Proof.
  unfold framed. rewrite orb_false_iff, !negb_false_iff, Nat.eqb_eq.
  split; intros [Hlen Ht]; split; try assumption;
    now apply (terminator_test data Hlen).
Qed.

Lemma range_guard (data : list byte) :
  (fieldYear data <? 2000) || (2099 <? fieldYear data)
  || (fieldDayOfYear data <? 1) || (366 <? fieldDayOfYear data)
  || (23 <? fieldHour data) || (59 <? fieldMinute data)
  || (59 <? fieldSecond data) = false
  <-> inRange data.
Proof.
  unfold inRange, fieldHour, fieldMinute, fieldSecond.
  pose proof (at_range data 5). pose proof (at_range data 6).
  pose proof (at_range data 7). pose proof (at_range data 8).
  pose proof (at_range data 9). pose proof (at_range data 10).
  rewrite !orb_false_iff, !Z.ltb_ge. lia.
Qed.

Lemma civilTimestamp_onDay (y doy h m s : Z) :
  2000 <= y <= 2099 -> 1 <= doy <= 366 ->
  0 <= h <= 23 -> 0 <= m <= 59 -> 0 <= s <= 59 ->
  civilTimestamp y doy h m s
  = onDay (GoTime.daysSinceEpoch y + doy - 1) h m s 0.
Proof.
  intros Hy Hdoy Hh Hm Hs. unfold civilTimestamp.
  rewrite (Date_normal (GoTime.daysSinceEpoch y) 0 0 0 0) by
    (try lia; unfold Calendar.civilDay; rewrite andb_false_r;
     change (GoTime.daysBefore (1 - 1)) with 0; lia).
  rewrite AddDate_days; try lia.
  2:{ replace (GoTime.daysSinceEpoch y)
        with (GoTime.daysSinceEpoch y + 1 - 1) by lia.
      apply CalendarFacts.roundTrips_century; lia. }
  set (t := onDay _ 0 0 0 0).
  replace (GoTime.Day t) with (GoTime.Day t + 0) by lia.
  rewrite (Date_of_fields (GoTime.daysSinceEpoch y + doy - 1)); try lia.
  - f_equal. lia.
  - apply CalendarFacts.roundTrips_century; lia.
  - subst t. rewrite absDay_onDay; lia.
Qed.

Lemma parse_wellFormed (now : GoTime.Time) (data : list byte) :
  wellFormed data -> parseZ3805APacket now data = Some (decoded now data).
Proof.
  intros [Hf Hr]. unfold parseZ3805APacket.
  apply frame_guard in Hf. rewrite Hf.
  pose proof Hr as Hg. apply range_guard in Hg. cbv zeta. rewrite Hg.
  destruct Hr as (Hy & Hd & Hh & Hm & Hs).
  rewrite civilTimestamp_onDay by assumption.
  unfold decoded, telegramDay. cbv zeta.
  destruct (fieldYear data <? 2020).
  - rewrite AddDate_days; try lia.
    + now rewrite Year_onDay, YearDay_onDay by lia.
    + apply CalendarFacts.roundTrips_century; lia.
  - now rewrite Z.add_0_r.
Qed.

Lemma parse_None (now : GoTime.Time) (data : list byte) :
  ~ wellFormed data -> parseZ3805APacket now data = None.
Proof.
  intro Hn. unfold parseZ3805APacket.
  destruct (negb (Nat.eqb (length data) 16) || negb (at_ data 15 =? 13))
    eqn:Ef; [reflexivity|].
  cbv zeta.
  match goal with
  | |- (if ?c then _ else _) = _ => destruct c eqn:Er
  end; [reflexivity|].
  exfalso. apply Hn. split.
  - now apply frame_guard.
  - now apply range_guard.
Qed.

(** The decoder returns a record exactly on the well-formed telegrams. *)
Lemma parse_Some_inv (now : GoTime.Time) (data : list byte) (s : Z3805AData) :
  parseZ3805APacket now data = Some s ->
  wellFormed data /\ s = decoded now data.
Proof.
  intro H.
  assert (W : wellFormed data).
  { unfold parseZ3805APacket in H.
    destruct (negb (Nat.eqb (length data) 16) || negb (at_ data 15 =? 13))
      eqn:Ef; [discriminate|].
    cbv zeta in H.
    match type of H with
    | (if ?c then _ else _) = _ => destruct c eqn:Er
    end; [discriminate|].
    split; [now apply frame_guard | now apply range_guard]. }
  split; [exact W|].
  rewrite (parse_wellFormed now data W) in H. congruence.
Qed.

(** Every record the decoder returns satisfies the range invariant of the
    data model, the recomputed year and day of an early telegram included. *)
Lemma decoded_sample_in_range (now : GoTime.Time) (data : list byte)
  (s : Z3805AData) :
  parseZ3805APacket now data = Some s ->
  2000 <= Year s <= 2099 /\ 1 <= DayOfYear s <= 366
  /\ 0 <= Hour s <= 23 /\ 0 <= Minute s <= 59 /\ 0 <= Second s <= 59.
Proof.
  intro H. apply parse_Some_inv in H. destruct H as [[_ Hr] ->].
  destruct Hr as (Hy & Hd & Hh & Hm & Hs).
  unfold decoded. cbv zeta. cbn [Year DayOfYear Hour Minute Second].
  destruct (fieldYear data <? 2020) eqn:E.
  - apply Z.ltb_lt in E. unfold telegramDay.
    destruct (CalendarFacts.rollover_year (fieldYear data) (fieldDayOfYear data)
                ltac:(lia) Hd) as (R1 & R2 & _).
    lia.
  - lia.
Qed.

(** * The claims *)

(** C1, as amended.  The scenario buffer
    [0x25,0x05, 0x04,0x03,0x00, 0x12,0x15, 0x30,0x00, 0x00,0x00, 0x00,0x00,
    0x00,0x00, 0x0D] is rejected: the decoder reads one decimal digit per
    byte, so its year is 2000 + 37*10 + 5 = 2375.  The telegram that carries
    the same reading one digit per byte decodes to year 2025, day 43,
    12:15:30, leap count 0, status Locked, valid, with the uncorrected
    timestamp 2025-02-12 12:15:30 UTC. *)
Theorem scenario_decodes_digit_per_byte (now : GoTime.Time) :
  parseZ3805APacket now scenarioBuffer = None
  /\ parseZ3805APacket now digitBuffer
     = Some {| Year := 2025; DayOfYear := 43; Hour := 12; Minute := 15;
               Second := 30; LeapSeconds := 0; Status := GPSDOLocked;
               Valid := true;
               Timestamp := civilTimestamp 2025 43 12 15 30;
               ParseTime := now |}
  /\ civilTimestamp 2025 43 12 15 30 = GoTime.mkTime 1739362530 0.
Proof. repeat split; vm_compute; reflexivity. Qed.

(** C1 as stated fails: the scenario buffer has year field 2375 and does not
    decode at all. *)
Lemma scenario_buffer_rejected :
  fieldYear scenarioBuffer = 2375
  /\ ~ (exists now s, parseZ3805APacket now scenarioBuffer = Some s).
Proof.
  split; [reflexivity|].
  intros (now & s & H). vm_compute in H. discriminate.
Qed.

(** C2, as amended.  For a telegram that decodes with a year field below
    2020, the returned timestamp is the computed one plus 7168 days, and the
    year and day of year are those of the corrected timestamp.  The corrected
    year lies in 2019..2039: it is 2019 for the first 137 days of 2000 and at
    least 2020 for every later date. *)
Theorem rollover_adds_7168_days (now : GoTime.Time) (data : list byte)
  (s : Z3805AData) :
  parseZ3805APacket now data = Some s ->
  fieldYear data < 2020 ->
  let original := civilTimestamp (fieldYear data) (fieldDayOfYear data)
                    (fieldHour data) (fieldMinute data) (fieldSecond data) in
  GoTime.Unix (Timestamp s) = GoTime.Unix original + 7168 * 86400
  /\ GoTime.Nanosecond (Timestamp s) = GoTime.Nanosecond original
  /\ Year s = GoTime.Year (Timestamp s)
  /\ DayOfYear s = GoTime.YearDay (Timestamp s)
  /\ 2019 <= Year s <= 2039
  /\ (fieldYear data = 2000 /\ fieldDayOfYear data <= 137 -> Year s = 2019)
  /\ (2000 < fieldYear data \/ 137 < fieldDayOfYear data -> 2020 <= Year s).
Proof.
  intros H Hearly. apply parse_Some_inv in H. destruct H as [[_ Hr] ->].
  destruct Hr as (Hy & Hd & Hh & Hm & Hs).
  cbv zeta. rewrite civilTimestamp_onDay by assumption.
  unfold decoded. cbv zeta.
  assert (E : (fieldYear data <? 2020) = true) by now apply Z.ltb_lt.
  rewrite E. cbn [Timestamp Year DayOfYear].
  rewrite Year_onDay, YearDay_onDay by lia.
  unfold telegramDay.
  destruct (CalendarFacts.rollover_year (fieldYear data) (fieldDayOfYear data)
              ltac:(lia) Hd) as (R1 & R2 & R3 & R4).
  split; [unfold GoTime.Unix, onDay; cbn [GoTime.unixSec]; lia|].
  split; [reflexivity|].
  do 2 (split; [reflexivity|]).
  split; [lia|]. split; assumption.
Qed.

Lemma rollover_adds_7168_days_witness :
  parseZ3805APacket epoch rolloverBuffer = Some (decoded epoch rolloverBuffer)
  /\ fieldYear rolloverBuffer < 2020
  /\ GoTime.Unix (Timestamp (decoded epoch rolloverBuffer))
     = GoTime.Unix (civilTimestamp 2019 43 12 15 30) + 7168 * 86400
  /\ 2020 <= Year (decoded epoch rolloverBuffer).
Proof.
  assert (H1 : parseZ3805APacket epoch rolloverBuffer
               = Some (decoded epoch rolloverBuffer))
    by (vm_compute; reflexivity).
  assert (H2 : fieldYear rolloverBuffer < 2020) by (vm_compute; reflexivity).
  pose proof (rollover_adds_7168_days epoch rolloverBuffer _ H1 H2) as T.
  cbv zeta in T. destruct T as (T1 & _ & _ & _ & _ & _ & T7).
  split; [exact H1|]. split; [exact H2|]. split; [exact T1|].
  apply T7. left. vm_compute. reflexivity.
Defined.

(** C2 as stated fails: the telegram for 2000-01-01 00:00:00 decodes with
    year field 2000, and 7168 days later is 2019-08-17, a year below 2020. *)
Lemma rollover_year_2019 :
  ~ (forall now data s,
       parseZ3805APacket now data = Some s ->
       fieldYear data < 2020 ->
       GoTime.Unix (Timestamp s)
       = GoTime.Unix (civilTimestamp (fieldYear data) (fieldDayOfYear data)
                        (fieldHour data) (fieldMinute data) (fieldSecond data))
         + 7168 * 86400
       /\ 2020 <= GoTime.Year (Timestamp s)).
Proof.
  intro H.
  specialize (H epoch earlyBuffer (decoded epoch earlyBuffer)).
  assert (H1 : parseZ3805APacket epoch earlyBuffer
               = Some (decoded epoch earlyBuffer))
    by (vm_compute; reflexivity).
  assert (H2 : fieldYear earlyBuffer < 2020) by (vm_compute; reflexivity).
  destruct (H H1 H2) as [_ C]. vm_compute in C. apply C. reflexivity.
Qed.

(** C3, as amended.  The record built for a valid sample is exactly 40 bytes
    long, with either declaration of the record: 8 + 8 for the timeval, 8 for
    the offset and 4 each for pulse, leap, pad and magic.  That record is the
    one datagram written when the socket accepts it. *)
Theorem sample_record_is_40_bytes (env : SockEnv) (g : Bridge)
  (d : Z3805AData) :
  Valid d = true ->
  length (encodeSample (chronySample d)) = 40%nat
  /\ length (Flat.encodeSample (Flat.chronySample d)) = 40%nat
  /\ Flat.encodeSample (Flat.chronySample d) = encodeSample (chronySample d)
  /\ sent (sendChronySample env g (Some d))
     = if dialOk env && writeOk env
       then sent g ++ [encodeSample (chronySample d)]
       else sent g.
Proof.
  intro Hv.
  assert (L : length (encodeSample (chronySample d)) = 40%nat).
  { unfold encodeSample, encodeTimeval.
    rewrite !length_app, !putLE_length. reflexivity. }
  assert (F : Flat.encodeSample (Flat.chronySample d)
              = encodeSample (chronySample d)).
  { unfold Flat.encodeSample, encodeSample, encodeTimeval,
      Flat.chronySample, chronySample.
    cbn [Flat.Sec Flat.Usec Flat.Offset Flat.Pulse Flat.Leap Flat.Pad
         Flat.Magic Tv Sec Usec Offset Pulse Leap Pad Magic].
    now rewrite <- app_assoc. }
  split; [exact L|]. split; [now rewrite F|]. split; [exact F|].
  unfold sendChronySample. rewrite Hv. cbn [negb].
  destruct (dialOk env), (writeOk env); reflexivity.
Qed.

Lemma sample_record_is_40_bytes_witness :
  Valid (decoded epoch digitBuffer) = true
  /\ length (encodeSample (chronySample (decoded epoch digitBuffer)))
     = 40%nat.
Proof.
  assert (Hv : Valid (decoded epoch digitBuffer) = true)
    by (vm_compute; reflexivity).
  split; [exact Hv|].
  exact (proj1 (sample_record_is_40_bytes
                  (mkSockEnv true true) (mkBridge [] 0 0 0 [])
                  (decoded epoch digitBuffer) Hv)).
Defined.

(** C3 as stated fails: no valid sample is encoded in 32 bytes. *)
Lemma sample_record_not_32_bytes :
  ~ (forall d : Z3805AData,
       Valid d = true ->
       length (encodeSample (chronySample d)) = 32%nat).
Proof.
  intro H. specialize (H (decoded epoch digitBuffer)).
  assert (Hv : Valid (decoded epoch digitBuffer) = true)
    by (vm_compute; reflexivity).
  specialize (H Hv). vm_compute in H. discriminate.
Qed.

(** C4.  For every decoded telegram, status code 0 gives Locked and valid,
    10 gives PowerUp and not valid, 100 gives Holdover and valid, any other
    code gives Unknown and not valid; the sample is valid exactly when its
    status is Locked or Holdover. *)
Theorem status_classification (now : GoTime.Time) (data : list byte)
  (s : Z3805AData) :
  parseZ3805APacket now data = Some s ->
  (fieldStatusVal data = 0 -> Status s = GPSDOLocked /\ Valid s = true)
  /\ (fieldStatusVal data = 10 -> Status s = GPSDOPowerUp /\ Valid s = false)
  /\ (fieldStatusVal data = 100 ->
      Status s = GPSDOHoldover /\ Valid s = true)
  /\ (fieldStatusVal data <> 0 -> fieldStatusVal data <> 10 ->
      fieldStatusVal data <> 100 ->
      Status s = GPSDOUnknown /\ Valid s = false)
  /\ (Valid s = true <-> Status s = GPSDOLocked \/ Status s = GPSDOHoldover).
Proof.
  intro H. apply parse_Some_inv in H. destruct H as [_ ->].
  unfold decoded. cbv zeta. cbn [Status Valid].
  generalize (fieldStatusVal data). intro v.
  assert (U : v <> 0 -> v <> 10 -> v <> 100 -> statusOf v = GPSDOUnknown).
  { intros H0 H10 H100. unfold statusOf.
    destruct v as [|q|q]; try reflexivity; try congruence.
    repeat (try reflexivity; try congruence;
            match goal with q' : positive |- _ => destruct q' end). }
  split; [intros ->; split; reflexivity|].
  split; [intros ->; split; reflexivity|].
  split; [intros ->; split; reflexivity|].
  split.
  - intros H0 H10 H100. rewrite (U H0 H10 H100). split; reflexivity.
  - destruct (statusOf v); cbn; split; intro H;
      try discriminate; auto; destruct H; discriminate.
Qed.

Lemma status_classification_witness :
  parseZ3805APacket epoch powerUpBuffer = Some (decoded epoch powerUpBuffer)
  /\ fieldStatusVal powerUpBuffer = 10
  /\ Status (decoded epoch powerUpBuffer) = GPSDOPowerUp
  /\ Valid (decoded epoch powerUpBuffer) = false.
Proof.
  assert (H : parseZ3805APacket epoch powerUpBuffer
              = Some (decoded epoch powerUpBuffer))
    by (vm_compute; reflexivity).
  assert (E : fieldStatusVal powerUpBuffer = 10) by (vm_compute; reflexivity).
  split; [exact H|]. split; [exact E|].
  exact (proj1 (proj2 (status_classification epoch powerUpBuffer _ H)) E).
Defined.

(** C5.  For a nil sample and for every sample whose validity flag is false,
    the transmit operation leaves the bridge as it was: nothing is encoded,
    no socket is opened, no datagram is written, no counter moves and nothing
    is logged. *)
Theorem invalid_sample_not_sent (env : SockEnv) (g : Bridge)
  (data : option Z3805AData) :
  (data = None \/ exists d, data = Some d /\ Valid d = false) ->
  sendChronySample env g data = g.
Proof.
  intros [->|(d & -> & Hv)]; [reflexivity|].
  unfold sendChronySample. now rewrite Hv.
Qed.

Lemma invalid_sample_not_sent_witness :
  Valid (decoded epoch powerUpBuffer) = false
  /\ sendChronySample (mkSockEnv true true) (mkBridge [] 0 0 0 [])
       (Some (decoded epoch powerUpBuffer))
     = mkBridge [] 0 0 0 [].
Proof.
  assert (Hv : Valid (decoded epoch powerUpBuffer) = false)
    by (vm_compute; reflexivity).
  split; [exact Hv|].
  apply (invalid_sample_not_sent (mkSockEnv true true) (mkBridge [] 0 0 0 [])
           (Some (decoded epoch powerUpBuffer))).
  right. exists (decoded epoch powerUpBuffer). split; [reflexivity|exact Hv].
Defined.

(** C6.  A buffer whose length is not 16, or whose byte at index 15 is not
    0x0D, decodes to no result, whatever its other bytes are. *)
Theorem bad_frame_rejected (now : GoTime.Time) (data : list byte) :
  length data <> 16%nat \/ nth_error data 15 <> Some x0d ->
  parseZ3805APacket now data = None.
Proof.
  intro H. apply parse_None. intros [[Hlen Ht] _].
  destruct H as [H|H]; contradiction.
Qed.

Lemma bad_frame_rejected_witness :
  (length lineFeedBuffer <> 16%nat
   \/ nth_error lineFeedBuffer 15 <> Some x0d)
  /\ parseZ3805APacket epoch lineFeedBuffer = None.
Proof.
  assert (H : length lineFeedBuffer <> 16%nat
              \/ nth_error lineFeedBuffer 15 <> Some x0d)
    by (right; cbn; discriminate).
  split; [exact H|].
  exact (bad_frame_rejected epoch lineFeedBuffer H).
Defined.

(** C7.  A 16-byte buffer ending in 0x0D one of whose decoded fields is out
    of range (year outside 2000..2099, day of year outside 1..366, hour
    outside 0..23, minute or second outside 0..59) decodes to no result. *)
Theorem out_of_range_rejected (now : GoTime.Time) (data : list byte) :
  length data = 16%nat ->
  nth_error data 15 = Some x0d ->
  (fieldYear data < 2000 \/ 2099 < fieldYear data
   \/ fieldDayOfYear data < 1 \/ 366 < fieldDayOfYear data
   \/ fieldHour data < 0 \/ 23 < fieldHour data
   \/ fieldMinute data < 0 \/ 59 < fieldMinute data
   \/ fieldSecond data < 0 \/ 59 < fieldSecond data) ->
  parseZ3805APacket now data = None.
Proof.
  intros _ _ H. apply parse_None. intros [_ Hr].
  unfold inRange in Hr. lia.
Qed.

Lemma out_of_range_rejected_witness :
  length hour24Buffer = 16%nat
  /\ nth_error hour24Buffer 15 = Some x0d
  /\ 23 < fieldHour hour24Buffer
  /\ parseZ3805APacket epoch hour24Buffer = None.
Proof.
  assert (Hh : 23 < fieldHour hour24Buffer) by (vm_compute; reflexivity).
  split; [reflexivity|]. split; [reflexivity|]. split; [exact Hh|].
  apply (out_of_range_rejected epoch hour24Buffer);
    [reflexivity | reflexivity | do 5 right; left; exact Hh].
Defined.

(** C8.  In every encoded record the offset is +0.0 and pulse, leap and pad
    are 0, each written as zero bytes; the magic is 0x534F434B, written least
    significant byte first as 4B 43 4F 53; the seconds and microseconds are
    written least significant byte first as well, so that reading either
    field back in little-endian order gives its 64-bit value. *)
Theorem sample_record_constants (d : Z3805AData) :
  let r := chronySample d in
  Offset r = S754_zero false
  /\ Pulse r = 0 /\ Leap r = 0 /\ Pad r = 0
  /\ Magic r = 0x534F434B
  /\ encodeSample r
     = putLE 8 (GoTime.Unix (Timestamp d))
       ++ putLE 8 (Z.quot (GoTime.Nanosecond (Timestamp d)) 1000)
       ++ [x00; x00; x00; x00; x00; x00; x00; x00]
       ++ [x00; x00; x00; x00]
       ++ [x00; x00; x00; x00]
       ++ [x00; x00; x00; x00]
       ++ [x4b; x43; x4f; x53]
  /\ leUint (putLE 8 (Sec (Tv r))) = Sec (Tv r) mod 2 ^ 64
  /\ leUint (putLE 8 (Usec (Tv r))) = Usec (Tv r) mod 2 ^ 64
  /\ leUint (putLE 8 (float64bits (Offset r))) = 0
  /\ leUint (putLE 4 (Magic r)) = 0x534F434B.
Proof.
  intro r. subst r.
  do 5 (split; [reflexivity|]).
  split.
  { unfold encodeSample, encodeTimeval, chronySample.
    cbn [Tv Sec Usec Offset Pulse Leap Pad Magic].
    rewrite <- app_assoc. do 2 f_equal. }
  split; [exact (leUint_putLE 8 _)|].
  split; [exact (leUint_putLE 8 _)|].
  split; reflexivity.
Qed.

(** C9.  Two runs of the decoder on the same buffer, at whatever times, both
    fail or both succeed, and when they succeed their records agree on every
    field but the decode time; on a 16-byte buffer with terminator 0x0D and
    fields in range the decoder does return a record. *)
Theorem decode_deterministic_and_total (now1 now2 : GoTime.Time)
  (data : list byte) :
  (parseZ3805APacket now1 data = None
   <-> parseZ3805APacket now2 data = None)
  /\ (forall s1 s2,
        parseZ3805APacket now1 data = Some s1 ->
        parseZ3805APacket now2 data = Some s2 ->
        sameReading s1 s2 /\ ParseTime s1 = now1 /\ ParseTime s2 = now2)
  /\ (wellFormed data ->
      exists s1 s2, parseZ3805APacket now1 data = Some s1
                    /\ parseZ3805APacket now2 data = Some s2).
Proof.
  split; [|split].
  - assert (D : forall n n', parseZ3805APacket n data = None ->
                             parseZ3805APacket n' data = None).
    { intros n n' H. apply parse_None. intro W.
      rewrite (parse_wellFormed n data W) in H. discriminate. }
    split; apply D.
  - intros s1 s2 H1 H2.
    apply parse_Some_inv in H1. destruct H1 as [_ ->].
    apply parse_Some_inv in H2. destruct H2 as [_ ->].
    unfold sameReading. repeat split.
  - intro W. exists (decoded now1 data), (decoded now2 data).
    split; now apply parse_wellFormed.
Qed.

Lemma decode_deterministic_and_total_witness :
  wellFormed digitBuffer
  /\ exists s1 s2,
       parseZ3805APacket epoch digitBuffer = Some s1
       /\ parseZ3805APacket (GoTime.mkTime 1739362531 250) digitBuffer
          = Some s2
       /\ sameReading s1 s2.
Proof.
  assert (W : wellFormed digitBuffer).
  { split; [split; reflexivity|]. unfold inRange. vm_compute.
    repeat split; discriminate. }
  split; [exact W|].
  destruct (decode_deterministic_and_total
              epoch (GoTime.mkTime 1739362531 250) digitBuffer)
    as (_ & Hsame & Htotal).
  destruct (Htotal W) as (s1 & s2 & H1 & H2).
  exists s1, s2. split; [exact H1|]. split; [exact H2|].
  exact (proj1 (Hsame s1 s2 H1 H2)).
Defined.

(** C10.  The decoder does not check that a byte is a decimal digit: the
    telegram with minute bytes 0x00, 0x3B holds a byte above 9 and decodes,
    with minute 0*10 + 59 = 59. *)
Theorem non_digit_byte_accepted (now : GoTime.Time) :
  (exists b, In b nonDigitBuffer /\ 9 < byteval b)
  /\ nth_error nonDigitBuffer 7 = Some x00
  /\ nth_error nonDigitBuffer 8 = Some x3b
  /\ byteval x3b = 59
  /\ exists s, parseZ3805APacket now nonDigitBuffer = Some s
               /\ Minute s = 59.
Proof.
  split.
  { exists x3b. split; [cbn; tauto | vm_compute; reflexivity]. }
  do 3 (split; [reflexivity|]).
  eexists. split; [vm_compute; reflexivity | reflexivity].
Qed.

(** * Further properties of the decoder *)

(** ** Status names *)

(** X1.  [String] gives the four statuses four different names, so a log
    line identifies the status. *)
Theorem status_names_distinct (a b : GPSDOStatus) :
  StatusNames.GPSDOStatus_String a = StatusNames.GPSDOStatus_String b ->
  a = b.
Proof. destruct a, b; intro H; try reflexivity; discriminate H. Qed.

Lemma status_names_distinct_witness :
  StatusNames.GPSDOStatus_String (statusOf 0)
  = StatusNames.GPSDOStatus_String GPSDOLocked
  /\ statusOf 0 = GPSDOLocked.
Proof.
  split; [reflexivity|].
  exact (status_names_distinct (statusOf 0) GPSDOLocked eq_refl).
Defined.

(** ** Status codes *)

Lemma statusOf_cases (v : Z) :
  (v = 0 /\ statusOf v = GPSDOLocked)
  \/ (v = 10 /\ statusOf v = GPSDOPowerUp)
  \/ (v = 100 /\ statusOf v = GPSDOHoldover)
  \/ (v <> 0 /\ v <> 10 /\ v <> 100 /\ statusOf v = GPSDOUnknown).
Proof.
  destruct (Z.eq_dec v 0) as [->|H0]; [left; split; reflexivity|].
  destruct (Z.eq_dec v 10) as [->|H10]; [right; left; split; reflexivity|].
  destruct (Z.eq_dec v 100) as [->|H100];
    [right; right; left; split; reflexivity|].
  do 3 right. repeat (split; [assumption|]).
  unfold statusOf.
  destruct v as [|q|q]; try reflexivity; try congruence.
  repeat (try reflexivity; try congruence;
          match goal with q' : positive |- _ => destruct q' end).
Qed.

(** X2.  The status code is a sum of two weighted bytes, so when both status
    bytes are decimal digits it is at most 99: such a telegram is never
    reported in Holdover, and it is valid exactly when both bytes are 0.
    Holdover needs a status byte above 9. *)
Theorem digit_status_never_holdover (now : GoTime.Time) (data : list byte)
  (s : Z3805AData) :
  parseZ3805APacket now data = Some s ->
  at_ data 13 <= 9 -> at_ data 14 <= 9 ->
  Status s <> GPSDOHoldover
  /\ (Valid s = true <-> at_ data 13 = 0 /\ at_ data 14 = 0).
Proof.
  intros H H13 H14. apply parse_Some_inv in H. destruct H as [_ ->].
  unfold decoded. cbv zeta. cbn [Status Valid].
  pose proof (at_range data 13) as R13. pose proof (at_range data 14) as R14.
  assert (E : fieldStatusVal data = at_ data 13 * 10 + at_ data 14)
    by reflexivity.
  destruct (statusOf_cases (fieldStatusVal data))
    as [[V ->]|[[V ->]|[[V ->]|(V0 & V10 & V100 & ->)]]]; cbn;
    (split; [try discriminate; lia|]); split; intro; try discriminate;
    try reflexivity; lia.
Qed.

Lemma digit_status_never_holdover_witness :
  parseZ3805APacket epoch powerUpBuffer = Some (decoded epoch powerUpBuffer)
  /\ at_ powerUpBuffer 13 <= 9 /\ at_ powerUpBuffer 14 <= 9
  /\ Status (decoded epoch powerUpBuffer) <> GPSDOHoldover.
Proof.
  assert (H : parseZ3805APacket epoch powerUpBuffer
              = Some (decoded epoch powerUpBuffer))
    by (vm_compute; reflexivity).
  assert (H13 : at_ powerUpBuffer 13 <= 9) by (vm_compute; discriminate).
  assert (H14 : at_ powerUpBuffer 14 <= 9) by (vm_compute; discriminate).
  split; [exact H|]. split; [exact H13|]. split; [exact H14|].
  exact (proj1 (digit_status_never_holdover epoch powerUpBuffer _ H H13 H14)).
Defined.

(** The one way to Holdover: status bytes that sum to 100, the first of them
    10 or more. *)
Lemma holdover_needs_non_digit (now : GoTime.Time) (data : list byte)
  (s : Z3805AData) :
  parseZ3805APacket now data = Some s ->
  (Status s = GPSDOHoldover <-> at_ data 13 * 10 + at_ data 14 = 100).
Proof.
  intro H. apply parse_Some_inv in H. destruct H as [_ ->].
  unfold decoded. cbv zeta. cbn [Status].
  assert (E : fieldStatusVal data = at_ data 13 * 10 + at_ data 14)
    by reflexivity.
  rewrite <- E.
  destruct (statusOf_cases (fieldStatusVal data))
    as [[V R]|[[V R]|[[V R]|(V0 & V10 & V100 & R)]]]; rewrite R;
    split; intro; try discriminate; try reflexivity; lia.
Qed.

(** ** The timestamp of a decoded telegram *)

Module CalendarChecksFacts.
Import GoTime Calendar CalendarFacts CalendarChecks.

Lemma late_years :
  forallb (fun y => lateYearOk y (daysSinceEpoch y)) (zrange 2000 100) = true.
Proof. vm_compute. reflexivity. Qed.

Lemma same_dates :
  forallb (fun y =>
             forallb (fun doy =>
                        sameDateOk y doy (absDate (daysSinceEpoch y + doy - 1)))
                     (zrange 1 366))
          (zrange 2000 100) = true.
Proof. vm_compute. reflexivity. Qed.

Lemma lateYearOk_spec (y d : Z) :
  lateYearOk y d = true -> 2020 <= y -> daysSinceEpoch 2000 + 7305 <= d.
Proof.
  unfold lateYearOk. generalize (daysSinceEpoch 2000). intros k H Hy.
  apply orb_prop in H. destruct H as [H|H].
  - apply Z.ltb_lt in H. lia.
  - now apply Z.leb_le in H.
Qed.

Lemma sameDateOk_spec (y doy : Z) (p : Z * Z) :
  sameDateOk y doy p = true ->
  (doy <= 365 \/ isLeap y = true -> fst p = y /\ snd p + 1 = doy)
  /\ (365 < doy -> isLeap y = false -> fst p = y + 1 /\ snd p = 0).
Proof.
  unfold sameDateOk. generalize (isLeap y). intros b H.
  destruct (doy <=? 365) eqn:E; destruct b; cbn [orb] in H;
    rewrite andb_true_iff, !Z.eqb_eq in H;
    try apply Z.leb_le in E; try apply Z.leb_gt in E;
    split; intros; try lia; try discriminate;
    match goal with
    | K : _ \/ _ |- _ => destruct K; try lia; try discriminate
    end.
Qed.

(** Years from 2020 on start no earlier than 2020-01-01. *)
Lemma daysSinceEpoch_late (y : Z) :
  2020 <= y <= 2099 -> daysSinceEpoch 2000 + 7305 <= daysSinceEpoch y.
Proof.
  intro Hy. apply (lateYearOk_spec y); [|lia].
  apply (zrange_forallb (fun y => lateYearOk y (daysSinceEpoch y))
           _ _ late_years y).
  lia.
Qed.

(** The calendar date of day [doy] of year [y]. *)
Lemma date_of_year_day (y doy : Z) :
  2000 <= y <= 2099 -> 1 <= doy <= 366 ->
  let p := absDate (daysSinceEpoch y + doy - 1) in
  (doy <= 365 \/ isLeap y = true -> fst p = y /\ snd p + 1 = doy)
  /\ (365 < doy -> isLeap y = false -> fst p = y + 1 /\ snd p = 0).
Proof.
  intros Hy Hd p. subst p. apply sameDateOk_spec.
  pose proof (zrange_forallb
                (fun y =>
                   forallb (fun doy =>
                              sameDateOk y doy
                                (absDate (daysSinceEpoch y + doy - 1)))
                           (zrange 1 366))
                _ _ same_dates y ltac:(lia)) as H.
  cbv beta in H.
  apply (zrange_forallb
           (fun doy => sameDateOk y doy (absDate (daysSinceEpoch y + doy - 1)))
           _ _ H doy).
  lia.
Qed.

End CalendarChecksFacts.

(** X3.  The timestamp of a decoded telegram reads, on the clock, the hour,
    minute and second of the telegram, with nothing below the second; the
    rollover fix moves the date only. *)
Theorem timestamp_keeps_clock (now : GoTime.Time) (data : list byte)
  (s : Z3805AData) :
  parseZ3805APacket now data = Some s ->
  GoTime.Clock (Timestamp s) = (Hour s, Minute s, Second s)
  /\ GoTime.Nanosecond (Timestamp s) = 0
  /\ Hour s = fieldHour data /\ Minute s = fieldMinute data
  /\ Second s = fieldSecond data
  /\ LeapSeconds s = fieldLeapSeconds data.
Proof.
  intro H. apply parse_Some_inv in H. destruct H as [[_ Hr] ->].
  destruct Hr as (Hy & Hd & Hh & Hm & Hs).
  unfold decoded. cbv zeta.
  cbn [Timestamp Hour Minute Second LeapSeconds].
  rewrite Clock_onDay by lia. repeat split.
Qed.

Lemma timestamp_keeps_clock_witness :
  parseZ3805APacket epoch rolloverBuffer = Some (decoded epoch rolloverBuffer)
  /\ GoTime.Clock (Timestamp (decoded epoch rolloverBuffer)) = (12, 15, 30).
Proof.
  assert (H : parseZ3805APacket epoch rolloverBuffer
              = Some (decoded epoch rolloverBuffer))
    by (vm_compute; reflexivity).
  split; [exact H|].
  exact (proj1 (timestamp_keeps_clock epoch rolloverBuffer _ H)).
Defined.

(** X4.  The year and day of year of a decoded record are those of its
    timestamp, with one exception: a telegram from 2020 on that names day
    366 of a year without a leap day is accepted, keeps year and day 366 in
    its fields, and carries the timestamp of January 1 of the next year. *)
Theorem fields_match_timestamp (now : GoTime.Time) (data : list byte)
  (s : Z3805AData) :
  parseZ3805APacket now data = Some s ->
  (fieldYear data < 2020 \/ fieldDayOfYear data <= 365
   \/ GoTime.isLeap (fieldYear data) = true ->
   GoTime.Year (Timestamp s) = Year s
   /\ GoTime.YearDay (Timestamp s) = DayOfYear s)
  /\ (2020 <= fieldYear data -> fieldDayOfYear data = 366 ->
      GoTime.isLeap (fieldYear data) = false ->
      Year s = fieldYear data /\ DayOfYear s = 366
      /\ GoTime.Year (Timestamp s) = fieldYear data + 1
      /\ GoTime.YearDay (Timestamp s) = 1).
Proof.
  intro H. apply parse_Some_inv in H. destruct H as [[_ Hr] ->].
  destruct Hr as (Hy & Hd & Hh & Hm & Hs).
  unfold decoded. cbv zeta. cbn [Timestamp Year DayOfYear].
  rewrite Year_onDay, YearDay_onDay by lia.
  destruct (fieldYear data <? 2020) eqn:E.
  - apply Z.ltb_lt in E. split; [intros _; split; reflexivity | lia].
  - apply Z.ltb_ge in E. rewrite Z.add_0_r. unfold telegramDay.
    destruct (CalendarChecksFacts.date_of_year_day
                (fieldYear data) (fieldDayOfYear data) Hy Hd) as [A B].
    split.
    + intros [C|C]; [lia|]. destruct (A C) as [A1 A2]. split; lia.
    + intros _ C1 C2. destruct (B ltac:(lia) C2) as [B1 B2].
      repeat split; lia.
Qed.

Lemma fields_match_timestamp_witness :
  parseZ3805APacket epoch day366Buffer = Some (decoded epoch day366Buffer)
  /\ fieldYear day366Buffer = 2025 /\ fieldDayOfYear day366Buffer = 366
  /\ Year (decoded epoch day366Buffer) = 2025
  /\ GoTime.Year (Timestamp (decoded epoch day366Buffer)) = 2025 + 1.
Proof.
  assert (H : parseZ3805APacket epoch day366Buffer
              = Some (decoded epoch day366Buffer))
    by (vm_compute; reflexivity).
  split; [exact H|]. split; [reflexivity|]. split; [reflexivity|].
  destruct (proj2 (fields_match_timestamp epoch day366Buffer _ H))
    as (A & _ & B & _);
    [vm_compute; discriminate | reflexivity | reflexivity |].
  split; [exact A | exact B].
Defined.

(** X5.  Every decoded timestamp lies between 2019-08-17 00:00:00 and
    2100-01-01 23:59:59 UTC: the seconds are positive and fit 32 bits
    unsigned, and nothing earlier than the first rolled-over day is ever
    reported. *)
Theorem timestamp_bounds (now : GoTime.Time) (data : list byte)
  (s : Z3805AData) :
  parseZ3805APacket now data = Some s ->
  1566000000 <= GoTime.Unix (Timestamp s) <= 4102531199.
Proof.
  intro H. apply parse_Some_inv in H. destruct H as [[_ Hr] ->].
  destruct Hr as (Hy & Hd & Hh & Hm & Hs).
  unfold decoded. cbv zeta. cbn [Timestamp].
  unfold GoTime.Unix, onDay. cbn [GoTime.unixSec]. unfold telegramDay.
  destruct (CalendarFacts.daysSinceEpoch_century (fieldYear data) Hy)
    as (B1 & B2 & B3).
  assert (K : GoTime.daysSinceEpoch 2000 = 145731)
    by (vm_compute; reflexivity).
  assert (U : GoTime.unixEpochDay = 134774) by reflexivity.
  destruct (fieldYear data <? 2020) eqn:E.
  - apply Z.ltb_lt in E. specialize (B3 E). lia.
  - apply Z.ltb_ge in E.
    pose proof (CalendarChecksFacts.daysSinceEpoch_late (fieldYear data)
                  ltac:(lia)) as L.
    lia.
Qed.

Lemma timestamp_bounds_witness :
  parseZ3805APacket epoch earlyBuffer = Some (decoded epoch earlyBuffer)
  /\ 1566000000 <= GoTime.Unix (Timestamp (decoded epoch earlyBuffer))
     <= 4102531199.
Proof.
  assert (H : parseZ3805APacket epoch earlyBuffer
              = Some (decoded epoch earlyBuffer))
    by (vm_compute; reflexivity).
  split; [exact H|].
  exact (timestamp_bounds epoch earlyBuffer _ H).
Defined.

(** * Further properties of the sample record *)

Lemma app_inv_length {A : Type} (a b c d : list A) :
  length a = length b -> a ++ c = b ++ d -> a = b /\ c = d.
Proof.
  revert b. induction a as [|x a IH]; intros [|y b] Hl H;
    try discriminate Hl.
  - now split.
  - cbn in H. injection H as -> H. injection Hl as Hl.
    destruct (IH b Hl H) as [-> ->]. now split.
Qed.

Lemma firstn_putLE_app (n : nat) (v : Z) (r : list byte) :
  firstn n (putLE n v ++ r) = putLE n v.
Proof.
  revert v. induction n as [|n IH]; intro v; [reflexivity|].
  cbn [putLE app firstn]. now rewrite IH.
Qed.

Lemma skipn_putLE_app (n : nat) (v : Z) (r : list byte) :
  skipn n (putLE n v ++ r) = r.
Proof.
  revert v. induction n as [|n IH]; intro v; [reflexivity|].
  cbn [putLE app skipn]. now rewrite IH.
Qed.

(** Two 64-bit signed values with the same eight bytes are equal. *)
Lemma putLE_int64_inj (a b : Z) :
  - 2 ^ 63 <= a < 2 ^ 63 -> - 2 ^ 63 <= b < 2 ^ 63 ->
  putLE 8 a = putLE 8 b -> a = b.
Proof.
  intros Ha Hb H. apply (f_equal leUint) in H.
  rewrite !leUint_putLE in H.
  change (2 ^ (8 * Z.of_nat 8)) with (2 ^ 64) in H.
  change (2 ^ 63) with 9223372036854775808 in *.
  change (2 ^ 64) with 18446744073709551616 in *.
  pose proof (Z.div_mod a 18446744073709551616 ltac:(lia)).
  pose proof (Z.div_mod b 18446744073709551616 ltac:(lia)).
  pose proof (Z.mod_pos_bound a 18446744073709551616 ltac:(lia)).
  pose proof (Z.mod_pos_bound b 18446744073709551616 ltac:(lia)).
  lia.
Qed.

(** The record in terms of its two variable fields. *)
Lemma encodeSample_layout (d : Z3805AData) :
  encodeSample (chronySample d)
  = putLE 8 (GoTime.Unix (Timestamp d))
    ++ putLE 8 (Z.quot (GoTime.Nanosecond (Timestamp d)) 1000)
    ++ repeat x00 20 ++ [x4b; x43; x4f; x53].
Proof.
  unfold encodeSample, encodeTimeval, chronySample.
  cbn [Tv Sec Usec Offset Pulse Leap Pad Magic].
  rewrite <- app_assoc. do 2 f_equal.
Qed.

(** X6.  The record is injective on the time it carries: for timestamps
    whose seconds fit an [int64] and whose nanoseconds are below 10^9, as
    every [time.Time] has them, two samples have the same record exactly
    when they have the same second and the same microsecond. *)
Theorem sample_record_injective (d1 d2 : Z3805AData) :
  - 2 ^ 63 <= GoTime.Unix (Timestamp d1) < 2 ^ 63 ->
  - 2 ^ 63 <= GoTime.Unix (Timestamp d2) < 2 ^ 63 ->
  0 <= GoTime.Nanosecond (Timestamp d1) < 1000000000 ->
  0 <= GoTime.Nanosecond (Timestamp d2) < 1000000000 ->
  (encodeSample (chronySample d1) = encodeSample (chronySample d2)
   <-> GoTime.Unix (Timestamp d1) = GoTime.Unix (Timestamp d2)
       /\ Z.quot (GoTime.Nanosecond (Timestamp d1)) 1000
          = Z.quot (GoTime.Nanosecond (Timestamp d2)) 1000).
Proof.
  intros S1 S2 N1 N2. rewrite !encodeSample_layout. split.
  - intro H.
    apply app_inv_length in H; [|now rewrite !putLE_length].
    destruct H as [Hs H].
    apply app_inv_length in H; [|now rewrite !putLE_length].
    destruct H as [Hu _].
    split; [now apply putLE_int64_inj|].
    apply putLE_int64_inj; [| |exact Hu].
    + pose proof (Z.quot_pos (GoTime.Nanosecond (Timestamp d1)) 1000
                    ltac:(lia) ltac:(lia)).
      pose proof (Z.quot_lt_upper_bound
                    (GoTime.Nanosecond (Timestamp d1)) 1000 1000000
                    ltac:(lia) ltac:(lia)).
      change (2 ^ 63) with 9223372036854775808. lia.
    + pose proof (Z.quot_pos (GoTime.Nanosecond (Timestamp d2)) 1000
                    ltac:(lia) ltac:(lia)).
      pose proof (Z.quot_lt_upper_bound
                    (GoTime.Nanosecond (Timestamp d2)) 1000 1000000
                    ltac:(lia) ltac:(lia)).
      change (2 ^ 63) with 9223372036854775808. lia.
  - intros [-> ->]. reflexivity.
Qed.

Lemma sample_record_injective_witness :
  (- 2 ^ 63 <= GoTime.Unix (Timestamp (decoded epoch digitBuffer)) < 2 ^ 63)
  /\ (0 <= GoTime.Nanosecond (Timestamp (decoded epoch digitBuffer))
       < 1000000000)
  /\ (encodeSample (chronySample (decoded epoch digitBuffer))
       = encodeSample (chronySample (decoded zeroTime digitBuffer))
       <-> GoTime.Unix (Timestamp (decoded epoch digitBuffer))
           = GoTime.Unix (Timestamp (decoded zeroTime digitBuffer))
           /\ Z.quot
                (GoTime.Nanosecond (Timestamp (decoded epoch digitBuffer)))
                1000
              = Z.quot
                  (GoTime.Nanosecond
                     (Timestamp (decoded zeroTime digitBuffer)))
                  1000).
Proof.
  assert (S1 : - 2 ^ 63 <= GoTime.Unix (Timestamp (decoded epoch digitBuffer))
               < 2 ^ 63)
    by (vm_compute; split; [discriminate|reflexivity]).
  assert (N1 : 0 <= GoTime.Nanosecond (Timestamp (decoded epoch digitBuffer))
               < 1000000000)
    by (vm_compute; split; [discriminate|reflexivity]).
  split; [exact S1|]. split; [exact N1|].
  apply (sample_record_injective (decoded epoch digitBuffer)
           (decoded zeroTime digitBuffer)); assumption.
Defined.

(** X7.  For a decoded telegram the record carries the timestamp without
    loss: its first eight bytes read back, least significant byte first, as
    the Unix second of the timestamp, the next eight bytes as 0
    microseconds, and the whole record is those seconds followed by 28 zero
    bytes and the magic. *)
Theorem decoded_record_reads_back (now : GoTime.Time) (data : list byte)
  (s : Z3805AData) :
  parseZ3805APacket now data = Some s ->
  let r := encodeSample (chronySample s) in
  leUint (firstn 8 r) = GoTime.Unix (Timestamp s)
  /\ leUint (firstn 8 (skipn 8 r)) = 0
  /\ r = putLE 8 (GoTime.Unix (Timestamp s))
         ++ repeat x00 28 ++ [x4b; x43; x4f; x53].
Proof.
  intros H r. subst r.
  pose proof (timestamp_bounds now data s H) as B.
  destruct (timestamp_keeps_clock now data s H) as (_ & N & _).
  rewrite encodeSample_layout, N.
  rewrite firstn_putLE_app, skipn_putLE_app, firstn_putLE_app.
  rewrite leUint_putLE.
  change (2 ^ (8 * Z.of_nat 8)) with 18446744073709551616.
  split; [apply Z.mod_small; lia|]. split; reflexivity.
Qed.

Lemma decoded_record_reads_back_witness :
  parseZ3805APacket epoch digitBuffer = Some (decoded epoch digitBuffer)
  /\ leUint (firstn 8 (encodeSample (chronySample (decoded epoch digitBuffer))))
     = GoTime.Unix (Timestamp (decoded epoch digitBuffer)).
Proof.
  assert (H : parseZ3805APacket epoch digitBuffer
              = Some (decoded epoch digitBuffer))
    by (vm_compute; reflexivity).
  split; [exact H|].
  exact (proj1 (decoded_record_reads_back epoch digitBuffer _ H)).
Defined.

(** * Properties of the transmitter *)

(** X8.  Whatever the sample and the socket do, one call of
    [sendChronySample] closes every socket it opens, leaves the datagrams
    already sent in place, and moves the [chronySamples] counter exactly when
    it hands a datagram to the socket, which takes a valid sample, a
    successful dial and a successful write.  A failed dial opens nothing. *)
Theorem transmit_effects (env : SockEnv) (g : Bridge)
  (data : option Z3805AData) :
  let g' := sendChronySample env g data in
  (dialled g' + closed g = dialled g + closed g')%nat
  /\ (dialOk env = false -> dialled g' = dialled g)
  /\ ((sent g' = sent g /\ chronySamples g' = chronySamples g
       /\ (data = None \/ (exists d, data = Some d /\ Valid d = false)
           \/ dialOk env = false \/ writeOk env = false))
      \/ (exists d, data = Some d /\ Valid d = true
                    /\ dialOk env = true /\ writeOk env = true
                    /\ sent g' = sent g ++ [encodeSample (chronySample d)]
                    /\ chronySamples g' = (chronySamples g + 1) mod 2 ^ 64)).
Proof.
  destruct data as [d|]; cbn.
  2:{ split; [reflexivity|]. split; [reflexivity|]. left.
      split; [reflexivity|]. split; [reflexivity|]. now left. }
  destruct (Valid d) eqn:V; cbn.
  2:{ split; [reflexivity|]. split; [reflexivity|]. left.
      split; [reflexivity|]. split; [reflexivity|].
      right. left. now exists d. }
  destruct (dialOk env) eqn:Dl; cbn.
  2:{ split; [reflexivity|]. split; [reflexivity|]. left.
      split; [reflexivity|]. split; [reflexivity|]. right. right. now left. }
  destruct (writeOk env) eqn:W; cbn.
  2:{ split; [lia|]. split; [discriminate|]. left.
      split; [reflexivity|]. split; [reflexivity|].
      right. right. now right. }
  split; [lia|]. split; [discriminate|]. right. exists d.
  split; [reflexivity|]. split; [exact V|]. split; [reflexivity|].
  split; [reflexivity|]. split; reflexivity.
Qed.

(** * Properties of the read loop *)

Lemma readInto_full (buf bs : list byte) :
  length bs = 16%nat -> (length buf <= 16)%nat -> readInto buf bs = bs.
Proof.
  intros Hb Hl. unfold readInto. rewrite Hb.
  rewrite skipn_all2 by exact Hl. apply app_nil_r.
Qed.

Lemma readInto_length (buf bs : list byte) :
  (length bs <= 16)%nat -> (length buf <= 16)%nat ->
  (length (readInto buf bs) <= 16)%nat.
Proof.
  intros Hb Hl. unfold readInto. rewrite length_app, length_skipn. lia.
Qed.

(** A 16-byte read that decodes has overwritten the whole buffer, whatever
    the buffer held. *)
Lemma readInto_decodes (now : GoTime.Time) (buf bs : list byte)
  (d : Z3805AData) :
  length bs = 16%nat ->
  parseZ3805APacket now (readInto buf bs) = Some d ->
  readInto buf bs = bs.
Proof.
  intros Hb H. apply parse_Some_inv in H. destruct H as [[[Hlen _] _] _].
  unfold readInto in *. rewrite length_app in Hlen.
  assert (E : skipn (length bs) buf = []).
  { destruct (skipn (length bs) buf); [reflexivity|]. cbn in Hlen. lia. }
  rewrite E. apply app_nil_r.
Qed.

Lemma fullRead_inv (e : Tick) :
  fullRead e = true ->
  readFailed (readOutcome e) = false
  /\ length (readBytes (readOutcome e)) = 16%nat.
Proof.
  unfold fullRead. intro H. apply andb_prop in H. destruct H as [H1 H2].
  apply negb_true_iff in H1. apply Nat.eqb_eq in H2. now split.
Qed.

Lemma fullRead_false (e : Tick) :
  fullRead e = false ->
  readFailed (readOutcome e) = true
  \/ Nat.eqb (length (readBytes (readOutcome e))) 16 = false.
Proof.
  unfold fullRead. intro H. apply andb_false_iff in H.
  destruct H as [H|H]; [left; now apply negb_false_iff in H | now right].
Qed.

Lemma iteration_dropped (e : Tick) (l : ReadLoop) :
  fullRead e = false -> sameButBuffer (iteration e l) l.
Proof.
  intro H. apply fullRead_false in H. unfold iteration. cbv zeta.
  destruct H as [H|H].
  - rewrite H. repeat split.
  - destruct (readFailed (readOutcome e)); [repeat split|].
    rewrite H. repeat split.
Qed.

(** X9.  The loop does not reassemble telegrams: turns whose read failed or
    did not return exactly 16 bytes change nothing but the buffer, however
    many they are and whatever bytes they carry.  A telegram that arrives
    split over two reads is lost. *)
Theorem partial_reads_dropped (es : list Tick) (l : ReadLoop) :
  Forall (fun e => fullRead e = false) es ->
  sameButBuffer (runLoop es l) l.
Proof.
  revert l. induction es as [|e es IH]; intros l H.
  - repeat split.
  - inversion H as [|e' es' He Hes]; subst. cbn [runLoop fold_left].
    specialize (IH (iteration e l) Hes). fold (runLoop es (iteration e l)).
    pose proof (iteration_dropped e l He) as S.
    unfold sameButBuffer in *. intuition congruence.
Qed.

Lemma partial_reads_dropped_witness :
  Forall (fun e => fullRead e = false) splitReads
  /\ bridge (runLoop splitReads runStart) = NewGPSDOChronySock
  /\ totalPackets (runLoop splitReads runStart) = 0.
Proof.
  assert (H : Forall (fun e => fullRead e = false) splitReads)
    by (repeat constructor).
  split; [exact H|].
  destruct (partial_reads_dropped splitReads runStart H) as (A & B & _).
  split; [exact A | exact B].
Defined.

Lemma iteration_inv (k : Z) (e : Tick) (l : ReadLoop) :
  loopInv k l -> k + 1 < 2 ^ 64 -> loopInv (k + 1) (iteration e l).
Proof.
  change (2 ^ 64) with 18446744073709551616.
  intros (I1 & I2 & I3 & I4 & I5 & I6) Hk.
  unfold iteration. cbv zeta.
  destruct (readFailed (readOutcome e)).
  { unfold loopInv. cbn. repeat split; try lia; apply I5. }
  destruct (Nat.eqb (length (readBytes (readOutcome e))) 16).
  2:{ unfold loopInv. cbn. repeat split; try lia; apply I5. }
  cbn [bridge totalPackets validPackets currentData telegramLog buffer
       lastUpdate].
  change (2 ^ 64) with 18446744073709551616.
  destruct (parseZ3805APacket (parseNow e) _) as [d|].
  2:{ unfold loopInv. cbn [bridge totalPackets validPackets currentData
                            telegramLog].
      rewrite Z.mod_small by lia. repeat split; try lia; apply I5. }
  unfold loopInv.
  cbn [bridge totalPackets validPackets currentData telegramLog].
  rewrite !Z.mod_small by lia.
  destruct (transmit_effects (sock e) (bridge l) (Some d)) as (T1 & _ & T3).
  cbv zeta in T1, T3. rewrite length_app. cbn [length].
  change (2 ^ 64) with 18446744073709551616 in T3.
  assert (C : chronySamples (sendChronySample (sock e) (bridge l) (Some d))
              = chronySamples (bridge l)
              /\ length (sent (sendChronySample (sock e) (bridge l) (Some d)))
                 = length (sent (bridge l))
              \/ chronySamples (sendChronySample (sock e) (bridge l) (Some d))
                 = chronySamples (bridge l) + 1
                 /\ length (sent (sendChronySample (sock e) (bridge l)
                                    (Some d)))
                    = S (length (sent (bridge l)))).
  { destruct T3 as [(A & B & _)|(d' & _ & _ & _ & _ & A & B)].
    - left. now rewrite A, B.
    - right. rewrite A, B, length_app. cbn [length].
      rewrite Z.mod_small by lia. split; lia. }
  repeat split; try lia; try discriminate.
Qed.

Lemma runLoop_inv (es : list Tick) :
  forall (k : Z) (l : ReadLoop),
    loopInv k l -> k + Z.of_nat (length es) < 2 ^ 64 ->
    loopInv (k + Z.of_nat (length es)) (runLoop es l).
Proof.
  induction es as [|e es IH]; intros k l I Hk.
  - cbn [length runLoop fold_left]. now rewrite Z.add_0_r.
  - cbn [runLoop fold_left]. fold (runLoop es (iteration e l)).
    cbn [length] in *.
    replace (k + Z.of_nat (S (length es)))
      with (k + 1 + Z.of_nat (length es)) in * by lia.
    apply IH; [|exact Hk].
    apply iteration_inv; [exact I|].
    change (2 ^ 64) with 18446744073709551616 in *. lia.
Qed.

(** X10.  Over any run of fewer than 2^64 turns from the start of [Run]:
    samples sent <= telegrams decoded <= 16-byte reads <= turns; the number
    of datagrams handed to the socket is the [chronySamples] counter and the
    number of telegram lines logged is [validPackets]; no socket is left
    open; and a telegram is kept for the status report exactly when
    [validPackets] is not 0. *)
Theorem run_counters_ordered (es : list Tick) :
  Z.of_nat (length es) < 2 ^ 64 ->
  let l := runLoop es runStart in
  0 <= chronySamples (bridge l) <= validPackets l
  /\ validPackets l <= totalPackets l <= Z.of_nat (length es)
  /\ Z.of_nat (length (sent (bridge l))) = chronySamples (bridge l)
  /\ dialled (bridge l) = closed (bridge l)
  /\ (currentData l = None <-> validPackets l = 0)
  /\ Z.of_nat (length (telegramLog l)) = validPackets l.
Proof.
  intros H l. subst l.
  apply (runLoop_inv es 0 runStart); [|exact H].
  unfold loopInv. cbn. repeat split; lia.
Qed.

Lemma run_counters_ordered_witness :
  Z.of_nat (length threeTurns) < 2 ^ 64
  /\ chronySamples (bridge (runLoop threeTurns runStart))
     <= validPackets (runLoop threeTurns runStart)
  /\ validPackets (runLoop threeTurns runStart)
     <= totalPackets (runLoop threeTurns runStart).
Proof.
  assert (H : Z.of_nat (length threeTurns) < 2 ^ 64) by reflexivity.
  split; [exact H|].
  destruct (run_counters_ordered threeTurns H) as ((_ & A) & (B & _) & _).
  split; [exact A | exact B].
Defined.

Lemma runLoop_sent_Forall (Q : list byte -> Prop) (es : list Tick) :
  forall l : ReadLoop,
    Forall Q (sent (bridge l)) ->
    (forall e d,
        In e es -> fullRead e = true ->
        parseZ3805APacket (parseNow e) (readBytes (readOutcome e)) = Some d ->
        Valid d = true -> Q (encodeSample (chronySample d))) ->
    Forall Q (sent (bridge (runLoop es l))).
Proof.
  induction es as [|e es IH]; intros l HQ Hes; [exact HQ|].
  cbn [runLoop fold_left]. fold (runLoop es (iteration e l)).
  apply IH; [|intros e' d' Hin; apply Hes; now right].
  unfold iteration. cbv zeta.
  destruct (readFailed (readOutcome e)) eqn:F; [exact HQ|].
  destruct (Nat.eqb (length (readBytes (readOutcome e))) 16) eqn:N;
    [|exact HQ].
  cbn [bridge buffer].
  destruct (parseZ3805APacket (parseNow e) _) as [d|] eqn:P; [|exact HQ].
  cbn [bridge].
  apply Nat.eqb_eq in N.
  rewrite (readInto_decodes _ _ _ _ N P) in P.
  destruct (transmit_effects (sock e) (bridge l) (Some d)) as (_ & _ & T).
  cbv zeta in T.
  destruct T as [(A & _)|(d' & Ed & V & _ & _ & A & _)].
  - now rewrite A.
  - injection Ed as <-. rewrite A. apply Forall_app. split; [exact HQ|].
    constructor; [|constructor].
    apply (Hes e d); [now left | | exact P | exact V].
    unfold fullRead. rewrite F. cbn. now apply Nat.eqb_eq.
Qed.

(** X11.  Every datagram the loop hands to the socket is the 40-byte record
    of a telegram that one of the turns read in full, from that read alone,
    and that decoded to a valid sample; nothing else is ever sent. *)
Theorem loop_sends_only_valid_records (es : list Tick) :
  Forall (fun buf =>
            length buf = 40%nat
            /\ exists e d,
                 In e es /\ fullRead e = true
                 /\ parseZ3805APacket (parseNow e) (readBytes (readOutcome e))
                    = Some d
                 /\ Valid d = true
                 /\ buf = encodeSample (chronySample d))
         (sent (bridge (runLoop es runStart))).
Proof.
  apply runLoop_sent_Forall; [constructor|].
  intros e d Hin Hf Hp Hv. split.
  - unfold encodeSample, encodeTimeval.
    rewrite !length_app, !putLE_length. reflexivity.
  - exists e, d. auto.
Qed.

Lemma countTurns_cons (f : Tick -> bool) (e : Tick) (es : list Tick) :
  countTurns f (e :: es) = (if f e then 1 else 0) + countTurns f es.
Proof.
  unfold countTurns. cbn [filter]. destruct (f e); cbn [length]; lia.
Qed.

Lemma countTurns_nonneg (f : Tick -> bool) (es : list Tick) :
  0 <= countTurns f es.
Proof. unfold countTurns. lia. Qed.

(** One turn, read off the turn alone, once the buffer is no longer than
    the 16 bytes it is made with. *)
Lemma iteration_step (e : Tick) (l : ReadLoop) :
  (length (buffer l) <= 16)%nat ->
  sent (bridge (iteration e l)) = sent (bridge l) ++ emitted e
  /\ totalPackets (iteration e l)
     = (if fullRead e then (totalPackets l + 1) mod 2 ^ 64
        else totalPackets l)
  /\ validPackets (iteration e l)
     = (if decodes e then (validPackets l + 1) mod 2 ^ 64
        else validPackets l)
  /\ chronySamples (bridge (iteration e l))
     = match emitted e with
       | [] => chronySamples (bridge l)
       | _ :: _ => (chronySamples (bridge l) + 1) mod 2 ^ 64
       end
  /\ buffer (iteration e l)
     = readInto (buffer l) (readBytes (readOutcome e)).
Proof.
  intro Hb. unfold iteration, emitted, decodes, fullRead. cbv zeta.
  destruct (readFailed (readOutcome e)).
  { cbn. rewrite app_nil_r. repeat split. }
  destruct (Nat.eqb (length (readBytes (readOutcome e))) 16) eqn:N.
  2:{ cbn. rewrite app_nil_r. repeat split. }
  apply Nat.eqb_eq in N. cbn [buffer negb andb].
  rewrite (readInto_full _ _ N Hb).
  destruct (parseZ3805APacket (parseNow e) (readBytes (readOutcome e)))
    as [d|].
  2:{ cbn. rewrite app_nil_r. repeat split. }
  cbn [bridge totalPackets validPackets buffer].
  unfold sendChronySample.
  destruct (Valid d); cbn [negb andb];
    [|rewrite app_nil_r; repeat split].
  destruct (dialOk (sock e)); cbn [negb andb];
    [|cbn; rewrite app_nil_r; repeat split].
  destruct (writeOk (sock e)); cbn [negb andb];
    [|cbn; rewrite app_nil_r; repeat split].
  cbn. repeat split.
Qed.

Lemma emitted_length (e : Tick) : (length (emitted e) <= 1)%nat.
Proof.
  unfold emitted. destruct (fullRead e); [|cbn; lia].
  destruct (parseZ3805APacket _ _) as [d|]; [|cbn; lia].
  destruct (Valid d && dialOk (sock e) && writeOk (sock e)); cbn; lia.
Qed.

Lemma runLoop_trace (es : list Tick) :
  forall l : ReadLoop,
    (length (buffer l) <= 16)%nat ->
    Forall (fun e => (length (readBytes (readOutcome e)) <= 16)%nat) es ->
    0 <= totalPackets l < 2 ^ 64 ->
    0 <= validPackets l < 2 ^ 64 ->
    0 <= chronySamples (bridge l) < 2 ^ 64 ->
    sent (bridge (runLoop es l)) = sent (bridge l) ++ concat (map emitted es)
    /\ totalPackets (runLoop es l)
       = (totalPackets l + countTurns fullRead es) mod 2 ^ 64
    /\ validPackets (runLoop es l)
       = (validPackets l + countTurns decodes es) mod 2 ^ 64
    /\ chronySamples (bridge (runLoop es l))
       = (chronySamples (bridge l)
          + Z.of_nat (length (concat (map emitted es)))) mod 2 ^ 64.
Proof.
  change (2 ^ 64) with 18446744073709551616.
  induction es as [|e es IH]; intros l Hb Hr Ht Hv Hc.
  - cbn [runLoop fold_left map concat length]. unfold countTurns.
    cbn [filter length Z.of_nat]. rewrite app_nil_r, !Z.add_0_r.
    rewrite !Z.mod_small by lia. repeat split.
  - inversion Hr as [|e' es' He Hes]; subst.
    cbn [runLoop fold_left]. fold (runLoop es (iteration e l)).
    destruct (iteration_step e l Hb) as (S1 & S2 & S3 & S4 & S5).
    change (2 ^ 64) with 18446744073709551616 in S2, S3, S4.
    assert (M : forall x, 0 <= (x + 1) mod 18446744073709551616
                          < 18446744073709551616)
      by (intro x; apply Z.mod_pos_bound; lia).
    destruct (IH (iteration e l)) as (R1 & R2 & R3 & R4).
    + rewrite S5. now apply readInto_length.
    + exact Hes.
    + rewrite S2. destruct (fullRead e); [apply M | exact Ht].
    + rewrite S3. destruct (decodes e); [apply M | exact Hv].
    + rewrite S4. destruct (emitted e); [exact Hc | apply M].
    + rewrite R1, R2, R3, R4, S1, S2, S3, S4.
      rewrite !countTurns_cons. cbn [map concat].
      rewrite length_app, <- app_assoc.
      pose proof (emitted_length e) as L.
      split; [reflexivity|].
      split; [destruct (fullRead e);
              [rewrite Z.add_mod_idemp_l by lia|]; f_equal; lia|].
      split; [destruct (decodes e);
              [rewrite Z.add_mod_idemp_l by lia|]; f_equal; lia|].
      destruct (emitted e) as [|x [|y r]]; cbn [length] in *;
        [|rewrite Z.add_mod_idemp_l by lia|lia]; f_equal; lia.
Qed.

(** X12.  Datagrams leave in arrival order, one turn at a time, and each
    depends on its own turn only: once the buffer is within its 16 bytes and
    no read returns more than the buffer holds, the datagrams sent over a run
    are those sent before it followed by what each turn emits by itself.
    Nothing is queued, merged, reordered or held back for a later turn. *)
Theorem loop_sends_in_arrival_order (es : list Tick) (l : ReadLoop) :
  (length (buffer l) <= 16)%nat ->
  Forall (fun e => (length (readBytes (readOutcome e)) <= 16)%nat) es ->
  sent (bridge (runLoop es l)) = sent (bridge l) ++ concat (map emitted es).
Proof.
  revert l. induction es as [|e es IH]; intros l Hb Hr.
  - cbn. now rewrite app_nil_r.
  - inversion Hr as [|e' es' He Hes]; subst.
    cbn [runLoop fold_left]. fold (runLoop es (iteration e l)).
    destruct (iteration_step e l Hb) as (S1 & _ & _ & _ & S5).
    rewrite IH; [|rewrite S5; now apply readInto_length|exact Hes].
    rewrite S1. cbn [map concat]. now rewrite <- app_assoc.
Qed.

Lemma loop_sends_in_arrival_order_witness :
  (length (buffer runStart) <= 16)%nat
  /\ Forall (fun e => (length (readBytes (readOutcome e)) <= 16)%nat)
            threeTurns
  /\ sent (bridge (runLoop threeTurns runStart))
     = sent (bridge runStart) ++ concat (map emitted threeTurns).
Proof.
  assert (Hb : (length (buffer runStart) <= 16)%nat) by (cbn; lia).
  assert (Hr : Forall (fun e => (length (readBytes (readOutcome e)) <= 16)%nat)
                      threeTurns)
    by (repeat constructor; cbn; lia).
  split; [exact Hb|]. split; [exact Hr|].
  exact (loop_sends_in_arrival_order threeTurns runStart Hb Hr).
Defined.

(** X13.  The statistics count exactly, wrapping at 2^64: over a run,
    [totalPackets] grows by the number of successful 16-byte reads,
    [validPackets] by the number of those that decode, whether the sample is
    valid or not, and [chronySamples] by the number of datagrams sent. *)
Theorem loop_counts_exactly (es : list Tick) (l : ReadLoop) :
  (length (buffer l) <= 16)%nat ->
  Forall (fun e => (length (readBytes (readOutcome e)) <= 16)%nat) es ->
  0 <= totalPackets l < 2 ^ 64 ->
  0 <= validPackets l < 2 ^ 64 ->
  0 <= chronySamples (bridge l) < 2 ^ 64 ->
  totalPackets (runLoop es l)
  = (totalPackets l + countTurns fullRead es) mod 2 ^ 64
  /\ validPackets (runLoop es l)
     = (validPackets l + countTurns decodes es) mod 2 ^ 64
  /\ chronySamples (bridge (runLoop es l))
     = (chronySamples (bridge l)
        + Z.of_nat (length (concat (map emitted es)))) mod 2 ^ 64.
Proof.
  intros Hb Hr Ht Hv Hc.
  exact (proj2 (runLoop_trace es l Hb Hr Ht Hv Hc)).
Qed.

Lemma loop_counts_exactly_witness :
  (length (buffer runStart) <= 16)%nat
  /\ Forall (fun e => (length (readBytes (readOutcome e)) <= 16)%nat)
            threeTurns
  /\ totalPackets (runLoop threeTurns runStart) = 2
  /\ validPackets (runLoop threeTurns runStart) = 2
  /\ chronySamples (bridge (runLoop threeTurns runStart)) = 1.
Proof.
  assert (Hb : (length (buffer runStart) <= 16)%nat) by (cbn; lia).
  assert (Hr : Forall (fun e => (length (readBytes (readOutcome e)) <= 16)%nat)
                      threeTurns)
    by (repeat constructor; cbn; lia).
  split; [exact Hb|]. split; [exact Hr|].
  destruct (loop_counts_exactly threeTurns runStart Hb Hr)
    as (A & B & C); try (vm_compute; split; [discriminate|reflexivity]).
  split; [exact A|]. split; [exact B | exact C].
Defined.
